(** * python-objects-mappers: the attribute converter and its parsers

    A shallow embedding of [converter/parsers.py], [converter/exceptions.py]
    and [converter/converters.py], followed by the properties the
    specification states about them.

    Python objects are modelled as follows.
    - A type annotation or runtime class is a [pytype]; [Optional] is the
      [typing.Optional] constructor with its normalisation
      ([Optional[None]] is [NoneType], [Optional[Optional[X]]] is
      [Optional[X]]).
    - A runtime value is a [value]; [type_of] is the builtin [type].
    - A call either returns or raises: [outcome A].
    - [dict]s that are only read by key are [gmap]s, [set]s are [gset]s; the
      dict of computed attributes keeps Python's insertion order because
      its functions are called in that order.  Python leaves the iteration
      order of a set unspecified; [elements] is one such order and no
      statement below depends on which.
    - The builtins [int] and [str] are those of CPython 3.11 and later,
      with the default limit of 4300 digits.  [int] of a [str] is modelled
      on ASCII text; on a [str] with a character outside ASCII, where
      [int] knows further digits and blanks, the model answers
      [Unmodelled] and says nothing. *)

From Stdlib Require Import ZArith Ascii String DecimalString.
From stdpp Require Import base option list gmap strings fin_maps fin_sets.

Local Open Scope Z_scope.

(* ===================================================================== *)
(** ** Types, values and exceptions *)
(* ===================================================================== *)

(** A type expression: [NoneType], a plain (non optional) type such as
    [int], [str], [bytes] or a user class, or [Optional] of a plain type. *)
Inductive pytype : Type :=
| TNone
| TCls (name : string)
| TOpt (name : string).

(** [typing.Optional[t]]. *)
Definition Optional (t : pytype) : pytype :=
  match t with
  | TNone => TNone
  | TCls n => TOpt n
  | TOpt n => TOpt n
  end.

Definition NoneType : pytype := TNone.
Definition int : pytype := TCls "int".
Definition str : pytype := TCls "str".
Definition bytes : pytype := TCls "bytes".
Definition bool_t : pytype := TCls "bool".

#[global] Instance pytype_eq_dec : EqDecision pytype.
Proof. solve_decision. Defined.

#[global] Instance pytype_countable : Countable pytype.
Proof.
  refine (inj_countable'
    (fun t => match t with
              | TNone => None
              | TCls n => Some (inl n)
              | TOpt n => Some (inr n)
              end)
    (fun o => match o with
              | None => TNone
              | Some (inl n) => TCls n
              | Some (inr n) => TOpt n
              end) _).
  by intros [].
Defined.

(** Runtime values.  [VObj cls attrs] is an instance of the user class
    [cls] that exposes the attribute names [attrs]. *)
Inductive value : Type :=
| VNone
| VBool (b : bool)
| VInt (z : Z)
| VStr (s : string)
| VBytes (b : string)
| VObj (cls : string) (attrs : list string).

(** The builtin [type(val)]. *)
Definition type_of (val : value) : pytype :=
  match val with
  | VNone => NoneType
  | VBool _ => bool_t
  | VInt _ => int
  | VStr _ => str
  | VBytes _ => bytes
  | VObj cls _ => TCls cls
  end.

(** [isinstance(val, type(None))], also [val is None]. *)
Definition is_None (val : value) : bool :=
  match val with VNone => true | _ => false end.

(** [hasattr(val, name)] for the attribute names the model tracks. *)
Definition hasattr (val : value) (name : string) : bool :=
  match val with
  | VObj _ attrs => bool_decide (name ∈ attrs)
  | _ => false
  end.

(** Keys of the two dicts whose lookup can raise [KeyError]. *)
Inductive pykey : Type :=
| KName (name : string)
| KTypes (origin_type return_type : pytype).

(** The two messages of [ConfigError] in [_setup_attrs]. *)
Inductive config_problem : Type :=
| NoTypeHints
| DuplicateRename (return_rename : list string).

(** exceptions.py, and the builtin exceptions the converter meets.
    [ParsingError] keeps its two attributes and the exception it was
    raised [from]. *)
Inductive exn : Type :=
| ConfigError (why : config_problem)
| ParsingError (attr_from attr_to : string) (cause : exn)
| KeyError (key : pykey)
| ValueError
| AttributeError (name : string)
| TypeError
| NotImplementedError
| Unmodelled
| UserError (name : string).

Inductive outcome (A : Type) : Type :=
| Ok (a : A)
| Raise (e : exn).
Arguments Ok {A} a.
Arguments Raise {A} e.

#[global] Instance outcome_ret : MRet outcome := fun A a => Ok a.
#[global] Instance outcome_bind : MBind outcome := fun A B k r =>
  match r with
  | Ok a => k a
  | Raise e => Raise e
  end.

(** An origin instance, and a constructed target instance: its attributes. *)
Abbreviation instance := (gmap string value).

(** [getattr(instance, name)]. *)
Definition getattr (inst : instance) (name : string) : outcome value :=
  match inst !! name with
  | Some v => Ok v
  | None => Raise (AttributeError name)
  end.

(* ===================================================================== *)
(** ** The builtins [int] and [str] *)
(* ===================================================================== *)

Module Builtins.

(** [sys.get_int_max_str_digits()]: the default. *)
Definition int_max_str_digits : Z := 4300.

(** The blanks [int] skips around a numeral: tab, line feed, vertical tab,
    form feed, carriage return and space. *)
Definition is_space (c : ascii) : bool :=
  let n := nat_of_ascii c in
  ((9 <=? n) && (n <=? 13) || (n =? 32))%nat.

Definition is_ascii (c : ascii) : bool := (nat_of_ascii c <? 128)%nat.

Definition digit_of (c : ascii) : option Z :=
  let n := nat_of_ascii c in
  if ((48 <=? n) && (n <=? 57))%nat then Some (Z.of_nat n - 48) else None.

Definition is_digit (c : ascii) : bool :=
  match digit_of c with Some _ => true | None => false end.

Fixpoint lstrip (cs : list ascii) : list ascii :=
  match cs with
  | c :: cs' => if is_space c then lstrip cs' else cs
  | [] => []
  end.

Definition strip (cs : list ascii) : list ascii :=
  rev (lstrip (rev (lstrip cs))).

(** Digits with single underscores between them.  [after_digit] tells
    whether the previous character was a digit. *)
Fixpoint digits (acc : Z) (after_digit : bool) (cs : list ascii) : option Z :=
  match cs with
  | [] => if after_digit then Some acc else None
  | c :: cs' =>
      match digit_of c with
      | Some d => digits (10 * acc + d) true cs'
      | None =>
          if (Ascii.eqb c "_" && after_digit)%bool
          then digits acc false cs'
          else None
      end
  end.

Definition numeral (cs : list ascii) : option Z :=
  match strip cs with
  | "+"%char :: ds => digits 0 false ds
  | "-"%char :: ds => Z.opp <$> digits 0 false ds
  | ds => digits 0 false ds
  end.

(** [int] of ASCII text: a numeral with more digits than the limit is
    refused; sign, underscores and blanks do not count. *)
Definition int_of_literal (cs : list ascii) : outcome Z :=
  match numeral cs with
  | Some z =>
      if int_max_str_digits <? Z.of_nat (length (List.filter is_digit cs))
      then Raise ValueError
      else Ok z
  | None => Raise ValueError
  end.

(** [int(s)] for a [str]. *)
Definition int_of_string (s : string) : outcome Z :=
  let cs := list_ascii_of_string s in
  if forallb is_ascii cs then int_of_literal cs else Raise Unmodelled.

(** [int(b)] for a [bytes]: every byte outside the numeral is an error. *)
Definition int_of_bytes (b : string) : outcome Z :=
  int_of_literal (list_ascii_of_string b).

(** The decimal numeral of an [int]. *)
Definition decimal (z : Z) : string :=
  NilZero.string_of_int (Z.to_int z).

(** [str(z)] for an [int]: refused beyond the limit of digits. *)
Definition string_of_int (z : Z) : outcome string :=
  if int_max_str_digits <? Z.of_nat (String.length (decimal (Z.abs z)))
  then Raise ValueError
  else Ok (decimal z).

(** The builtin [int(value)]. *)
Definition int (val : value) : outcome value :=
  match val with
  | VNone => Raise TypeError
  | VBool b => Ok (VInt (if b then 1 else 0))
  | VInt z => Ok (VInt z)
  | VStr s => z ← int_of_string s; Ok (VInt z)
  | VBytes b => z ← int_of_bytes b; Ok (VInt z)
  | VObj _ _ => Raise TypeError
  end.

(** The builtin [str(value)].  The [repr] of a [bytes] object and of a
    user object is not modelled. *)
Definition str (val : value) : outcome value :=
  match val with
  | VNone => Ok (VStr "None")
  | VBool b => Ok (VStr (if b then "True" else "False"))
  | VInt z => s ← string_of_int z; Ok (VStr s)
  | VStr s => Ok (VStr s)
  | VBytes _ => Raise Unmodelled
  | VObj _ _ => Raise Unmodelled
  end.

End Builtins.

(* ===================================================================== *)
(** ** Dictionaries *)
(* ===================================================================== *)

(** [dict(pairs)]: a later pair replaces an earlier one with its key. *)
Definition dict `{Countable K} {V} (pairs : list (K * V)) : gmap K V :=
  fold_left (fun d kv => <[kv.1 := kv.2]> d) pairs ∅.

(** [d[key]] on a dict keyed by attribute names. *)
Definition getitem {V} (d : gmap string V) (key : string) : outcome V :=
  match d !! key with
  | Some v => Ok v
  | None => Raise (KeyError (KName key))
  end.

(** A dict whose iteration order is observed: the items in insertion
    order, each key once. *)
Module OrderedDict.

Definition t (V : Type) : Type := list (string * V).

(** [d[key] = v]: an existing key keeps its place. *)
Fixpoint setitem {V} (key : string) (v : V) (d : t V) : t V :=
  match d with
  | [] => [(key, v)]
  | (k, w) :: d' =>
      if decide (k = key) then (k, v) :: d' else (k, w) :: setitem key v d'
  end.

(** [dict(pairs)]. *)
Definition of_pairs {V} (pairs : list (string * V)) : t V :=
  fold_left (fun d kv => setitem kv.1 kv.2 d) pairs [].

Definition items {V} (d : t V) : list (string * V) := d.
Definition keys {V} (d : t V) : list string := d.*1.

Fixpoint get {V} (d : t V) (key : string) : option V :=
  match d with
  | [] => None
  | (k, w) :: d' => if decide (k = key) then Some w else get d' key
  end.

End OrderedDict.

(* ===================================================================== *)
(** ** parsers.py *)
(* ===================================================================== *)

(** A parser object: the two annotations [get_type_hints] reads and the
    [parse] method of its class. *)
Record BaseParser : Type := {
  origin_type : pytype;
  return_type : pytype;
  parse : value -> outcome value
}.

Definition get_parse_types (self : BaseParser) : list (pytype * pytype) :=
  [ (origin_type self, Optional (return_type self));
    (Optional (origin_type self), Optional (return_type self));
    (origin_type self, return_type self) ].

Definition __call__ (self : BaseParser) (val : value) : outcome value :=
  if is_None val then Ok VNone else parse self val.

(** [BaseParser] itself: [parse] is left to the subclasses.  Its two
    annotations are type variables, named here by their names. *)
Definition abstract_parser : BaseParser :=
  {| origin_type := TCls "T1"; return_type := TCls "T2";
     parse := fun _ => Raise NotImplementedError |}.

Definition IntStrParser : BaseParser :=
  {| origin_type := int; return_type := str; parse := Builtins.str |}.

Definition StrIntParser : BaseParser :=
  {| origin_type := str; return_type := int; parse := Builtins.int |}.

Definition DjangoRelatedField : pytype := TCls "DjangoRelatedField".

(* ===================================================================== *)
(** ** converters.py *)
(* ===================================================================== *)

(** What the converter asks of a class: its type hints (the items of
    [get_type_hints(cls)]), for a Django model the keys of
    [_meta._forward_fields_map], and its constructor called with keyword
    arguments. *)
Record PyClass : Type := {
  cls_hints : list (string * pytype);
  cls_forward_fields : list string;
  cls_new : gmap string value -> outcome instance
}.

Definition get_type_hints (cls : PyClass) : gmap string pytype :=
  dict (cls_hints cls).

(** A call [f( **d1, **d2, **d3 )]: a keyword given twice is a [TypeError]
    raised before [f] runs. *)
Fixpoint unpack_kwargs (ds : list (gmap string value)) (kwargs : gmap string value)
  : outcome (gmap string value) :=
  match ds with
  | [] => Ok kwargs
  | d :: ds' =>
      if decide (dom kwargs ∩ dom d = (∅ : gset string))
      then unpack_kwargs ds' (kwargs ∪ d)
      else Raise TypeError
  end.

(** The class attributes a converter class is configured with. *)
Record Config : Type := {
  origin_class : PyClass;
  return_class : PyClass;
  return_compute_fields : list (string * (instance -> outcome value));
  rename_pairs : list (string * string);
  return_type_hints : list (string * pytype);
  exclude_fields : list string
}.

(** The methods a converter class may override. *)
Class ConverterClass : Type := {
  _get_parsers : list BaseParser;
  _get_origin_value_type : value -> pytype;
  _get_origin_attrs : PyClass -> list string
}.

(** The attributes [__init__] sets on [self]. *)
Record Converter : Type := {
  _return_class : PyClass;
  _origin_class : PyClass;
  _parsers_mapping : gmap (pytype * pytype) BaseParser;
  _compute_fields_mapping : OrderedDict.t (instance -> outcome value);
  origin_attrs : list string;
  return_hints : gmap string pytype;
  return_attrs : gset string;
  origin_rename : list string;
  return_rename : list string;
  origin_contains : gset string
}.

Definition is_KeyError_or_ValueError (e : exn) : bool :=
  match e with
  | KeyError _ | ValueError => true
  | _ => false
  end.

Section BaseConverter.

Context `{ConverterClass}.

Definition _setup_parsers : gmap (pytype * pytype) BaseParser :=
  fold_left
    (fun _parsers_mapping parser =>
       let parse_types := dict ((fun type_ => (type_, parser)) <$> get_parse_types parser) in
       parse_types ∪ _parsers_mapping)
    _get_parsers ∅.

Definition _parse_rename_mapping (doublet : list (string * string))
  : list string * list string :=
  fold_left
    (fun '(origin_rename, return_rename) item =>
       (origin_rename ++ [item.1], return_rename ++ [item.2]))
    doublet ([], []).

Definition _setup_attrs (cfg : Config)
    (_parsers_mapping : gmap (pytype * pytype) BaseParser) : outcome Converter :=
  let _compute_fields_mapping := OrderedDict.of_pairs (return_compute_fields cfg) in
  let return_compute_attrs_set : gset string :=
    list_to_set (OrderedDict.keys _compute_fields_mapping) in
  let origin_attrs := _get_origin_attrs (origin_class cfg) in
  let return_hints := get_type_hints (return_class cfg) in
  let return_hints := dict (return_type_hints cfg) ∪ return_hints in
  if decide (size return_hints = 0%nat) then Raise (ConfigError NoTypeHints) else
  let return_attrs : gset string :=
    dom return_hints ∖ list_to_set (exclude_fields cfg) ∖ return_compute_attrs_set in
  let '(origin_rename, return_rename) := _parse_rename_mapping (rename_pairs cfg) in
  let return_rename_set : gset string := list_to_set return_rename in
  if decide (size return_rename_set ≠ length return_rename)
  then Raise (ConfigError (DuplicateRename return_rename)) else
  let origin_contains :=
    (return_attrs ∖ return_rename_set) ∩ list_to_set origin_attrs in
  Ok {| _return_class := return_class cfg;
        _origin_class := origin_class cfg;
        _parsers_mapping := _parsers_mapping;
        _compute_fields_mapping := _compute_fields_mapping;
        origin_attrs := origin_attrs;
        return_hints := return_hints;
        return_attrs := return_attrs;
        origin_rename := origin_rename;
        return_rename := return_rename;
        origin_contains := origin_contains |}.

Definition __init__ (cfg : Config) : outcome Converter :=
  _setup_attrs cfg _setup_parsers.

Definition get_return_class (self : Converter) : PyClass := _return_class self.

(** The body of the loop of [_parse_rename]: the value stored under
    [attr_to]. *)
Definition parse_attr (self : Converter) (inst : instance)
    (attr_from attr_to : string) : outcome value :=
  val ← getattr inst attr_from;
  let val_type := _get_origin_value_type val in
  return_type ← getitem (return_hints self) attr_to;
  if bool_decide (val_type ≠ return_type)
     && bool_decide (Optional val_type ≠ return_type)
     && negb (is_None val)
  then
    match
      match _parsers_mapping self !! (val_type, return_type) with
      | Some parser => __call__ parser val
      | None => Raise (KeyError (KTypes val_type return_type))
      end
    with
    | Ok val => Ok val
    | Raise e =>
        if is_KeyError_or_ValueError e
        then Raise (ParsingError attr_from attr_to e)
        else Raise e
    end
  else Ok val.

Fixpoint parse_attrs (self : Converter) (inst : instance)
    (pairs : list (string * string)) (result : gmap string value)
  : outcome (gmap string value) :=
  match pairs with
  | [] => Ok result
  | (attr_from, attr_to) :: pairs' =>
      val ← parse_attr self inst attr_from attr_to;
      parse_attrs self inst pairs' (<[attr_to := val]> result)
  end.

Definition _parse_rename (self : Converter) (origin return_ : list string)
    (inst : instance) : outcome (gmap string value) :=
  parse_attrs self inst (zip origin return_) ∅.

Definition _parse_samename (self : Converter) (origin : list string)
    (inst : instance) : outcome (gmap string value) :=
  _parse_rename self origin origin inst.

Fixpoint compute_attrs (inst : instance)
    (items : list (string * (instance -> outcome value)))
    (result : gmap string value) : outcome (gmap string value) :=
  match items with
  | [] => Ok result
  | (attr, func) :: items' =>
      val ← func inst;
      compute_attrs inst items' (<[attr := val]> result)
  end.

Definition _parse_need_compute (self : Converter) (inst : instance)
  : outcome (gmap string value) :=
  compute_attrs inst (OrderedDict.items (_compute_fields_mapping self)) ∅.

(** The three mappings [convert] builds, in the order it builds them. *)
Definition convert_results (self : Converter) (inst : instance)
  : outcome (gmap string value * gmap string value * gmap string value) :=
  contains_result ← _parse_samename self (elements (origin_contains self)) inst;
  rename_result ← _parse_rename self (origin_rename self) (return_rename self) inst;
  need_compute_result ← _parse_need_compute self inst;
  Ok (contains_result, rename_result, need_compute_result).

(** The keyword arguments [convert] calls the constructor with. *)
Definition convert_kwargs (self : Converter) (inst : instance)
  : outcome (gmap string value) :=
  '(contains_result, rename_result, need_compute_result) ← convert_results self inst;
  unpack_kwargs [contains_result; rename_result; need_compute_result] ∅.

Definition convert (self : Converter) (inst : instance) : outcome instance :=
  kwargs ← convert_kwargs self inst;
  let ReturnClass := get_return_class self in
  cls_new ReturnClass kwargs.

End BaseConverter.

#[global] Instance BaseConverter : ConverterClass := {|
  _get_parsers := [StrIntParser; IntStrParser];
  _get_origin_value_type := type_of;
  _get_origin_attrs := fun _origin_class => elements (dom (get_type_hints _origin_class))
|}.

Definition DjangoConverter : ConverterClass := {|
  _get_parsers := [StrIntParser; IntStrParser];
  _get_origin_value_type := fun val =>
    if hasattr val "all" then DjangoRelatedField else type_of val;
  _get_origin_attrs := fun _origin_class => cls_forward_fields _origin_class
|}.

(* ===================================================================== *)
(** ** The classes and converters of tests/test_converters.py *)
(* ===================================================================== *)

(** A [@dataclass] whose fields have no defaults: the constructor takes
    exactly its fields. *)
Definition dataclass (fields : list (string * pytype)) : PyClass :=
  {| cls_hints := fields;
     cls_forward_fields := [];
     cls_new := fun kwargs =>
       if decide (dom kwargs = list_to_set fields.*1) then Ok kwargs
       else Raise TypeError |}.

(** The builtin [object]: no annotations, no constructor arguments. *)
Definition object : PyClass := dataclass [].

Module Tests.

Definition A : PyClass := dataclass [("attr1", int); ("attr2", str)].
Definition B : PyClass := dataclass [("attr1", int); ("attr2", int)].
Definition C : PyClass :=
  dataclass [("attr1", int); ("attr2", int); ("attr3", int)].
Definition D : PyClass := dataclass [("attr1", bytes)].

Definition plain (origin return_ : PyClass) : Config :=
  {| origin_class := origin; return_class := return_;
     return_compute_fields := []; rename_pairs := [];
     return_type_hints := []; exclude_fields := [] |}.

Definition ABConverter : Config := plain A B.

Definition ACRenameConverter : Config :=
  {| origin_class := A; return_class := C;
     return_compute_fields := []; rename_pairs := [("attr1", "attr3")];
     return_type_hints := []; exclude_fields := [] |}.

Definition ACComputeConverter : Config :=
  {| origin_class := A; return_class := C;
     return_compute_fields := [("attr3", fun x => getattr x "attr1")];
     rename_pairs := [];
     return_type_hints := []; exclude_fields := [] |}.

Definition ADConverter : Config := plain A D.

Definition EmptyTypeHints : Config := plain A object.

Definition DoubleRename : Config :=
  {| origin_class := A; return_class := B;
     return_compute_fields := [];
     rename_pairs := [("attr1", "attr2"); ("attr1", "attr2")];
     return_type_hints := []; exclude_fields := [] |}.

(** [A(1, "1")]. *)
Definition a : instance := {[ "attr1" := VInt 1; "attr2" := VStr "1" ]}.

(** [B(1, 1)]. *)
Definition b : instance := {[ "attr1" := VInt 1; "attr2" := VInt 1 ]}.

(** [Conv().convert(inst)]. *)
Definition run (cfg : Config) (inst : instance) : outcome instance :=
  self ← __init__ cfg; convert self inst.

End Tests.

Module NoneTests.

(** [A(1, None)]. *)
Definition a_none : instance := {[ "attr1" := VInt 1; "attr2" := VNone ]}.

End NoneTests.

Module EmptyResolved.

(** All the fields of [B] excluded: type hints are there, no field is left. *)
Definition AllExcluded : Config :=
  {| origin_class := Tests.A; return_class := Tests.B;
     return_compute_fields := []; rename_pairs := [];
     return_type_hints := []; exclude_fields := ["attr1"; "attr2"] |}.

End EmptyResolved.

Module TwoFailures.

Definition XY : PyClass := dataclass [("x", bytes); ("y", bytes)].

(** Both renamed attributes have a type no parser takes to [bytes]. *)
Definition Conv : Config :=
  {| origin_class := Tests.A; return_class := XY;
     return_compute_fields := [];
     rename_pairs := [("attr1", "x"); ("attr2", "y")];
     return_type_hints := []; exclude_fields := [] |}.

End TwoFailures.

Module Overlap.

(** [attr3] is both a rename target and a computed attribute. *)
Definition RenameAndCompute : Config :=
  {| origin_class := Tests.A; return_class := Tests.C;
     return_compute_fields := [("attr3", fun x => getattr x "attr1")];
     rename_pairs := [("attr1", "attr3")];
     return_type_hints := []; exclude_fields := [] |}.

(** [attr3] is excluded and is a rename target. *)
Definition ExcludedRename : Config :=
  {| origin_class := Tests.A; return_class := Tests.C;
     return_compute_fields := [];
     rename_pairs := [("attr1", "attr3")];
     return_type_hints := []; exclude_fields := ["attr3"] |}.

(** [attr3] is excluded and is a computed attribute. *)
Definition ExcludedCompute : Config :=
  {| origin_class := Tests.A; return_class := Tests.C;
     return_compute_fields := [("attr3", fun x => getattr x "attr1")];
     rename_pairs := [];
     return_type_hints := []; exclude_fields := ["attr3"] |}.

End Overlap.

Module Unhinted.

(** The target has no type hint at all. *)
Definition NoHints : Config :=
  {| origin_class := Tests.A; return_class := object;
     return_compute_fields := []; rename_pairs := [("attr1", "x")];
     return_type_hints := []; exclude_fields := [] |}.

(** [zzz] has no type hint; the same-name [attr1] cannot be parsed. *)
Definition AfterFailure : Config :=
  {| origin_class := Tests.A; return_class := Tests.D;
     return_compute_fields := []; rename_pairs := [("attr2", "zzz")];
     return_type_hints := []; exclude_fields := [] |}.

(** [zzz] has no type hint; the same-name attributes are copied. *)
Definition Reached : Config :=
  {| origin_class := Tests.A; return_class := Tests.B;
     return_compute_fields := []; rename_pairs := [("attr2", "zzz")];
     return_type_hints := []; exclude_fields := [] |}.

End Unhinted.

Module MoreTests.

(** A related manager of a Django model: it has [all] and [order_by]. *)
Definition related : value := VObj "RelatedManager" ["all"; "order_by"].

(** A model with the forward fields [id] and [tags]. *)
Definition Model : PyClass :=
  {| cls_hints := [];
     cls_forward_fields := ["id"; "tags"];
     cls_new := fun kwargs => Ok kwargs |}.

Definition Dto : PyClass := dataclass [("id", int); ("tags", TCls "list")].

Definition ModelDto : Config := Tests.plain Model Dto.

(** A model instance whose [tags] is a related manager. *)
Definition m : instance := {[ "id" := VInt 7; "tags" := related ]}.

(** [attr3] is configured twice. *)
Definition ComputeTwice : Config :=
  {| origin_class := Tests.A; return_class := Tests.C;
     return_compute_fields :=
       [("attr3", fun x => getattr x "attr2"); ("attr3", fun x => getattr x "attr1")];
     rename_pairs := [];
     return_type_hints := []; exclude_fields := [] |}.

(** The extra annotation declares [attr2] a [str]. *)
Definition HintOverride : Config :=
  {| origin_class := Tests.A; return_class := Tests.B;
     return_compute_fields := []; rename_pairs := [];
     return_type_hints := [("attr2", str)]; exclude_fields := [] |}.

(** The function of [attr3] raises. *)
Definition ComputeFails : Config :=
  {| origin_class := Tests.A; return_class := Tests.C;
     return_compute_fields := [("attr3", fun _ => Raise (UserError "boom"))];
     rename_pairs := [];
     return_type_hints := []; exclude_fields := [] |}.

End MoreTests.

(* ===================================================================== *)
(** ** Notions used in the statements *)
(* ===================================================================== *)

Definition returns {A} (r : outcome A) : Prop := ∃ a, r = Ok a.

(** Both [_parse_rename] and [_parse_need_compute] run a step per item and
    store its value under the item's key, stopping at the first step that
    raises. *)
Fixpoint store_each {A} (key : A → string) (step : A → outcome value)
    (xs : list A) (acc : gmap string value) : outcome (gmap string value) :=
  match xs with
  | [] => Ok acc
  | x :: xs' =>
      match step x with
      | Ok v => store_each key step xs' (<[key x := v]> acc)
      | Raise e => Raise e
      end
  end.

(** Two entries of a list with the same second component. *)
Definition repeated_target (pairs : list (string * string)) : Prop :=
  ∃ (i j : nat) (o1 o2 t : string),
    i ≠ j ∧ pairs !! i = Some (o1, t) ∧ pairs !! j = Some (o2, t).

(** [return_hints] after the [update] with [return_type_hints]. *)
Definition target_hints (cfg : Config) : gmap string pytype :=
  dict (return_type_hints cfg) ∪ get_type_hints (return_class cfg).

(** The resolved target field set in the specification's words: the
    declared type hints of the target with the extra annotations, minus the
    excluded fields, minus the computed fields.  It is [return_attrs]. *)
Definition resolved_target_fields (cfg : Config) : gset string :=
  dom (target_hints cfg)
  ∖ list_to_set (exclude_fields cfg)
  ∖ list_to_set (return_compute_fields cfg).*1.

Section notions.

Context `{ConverterClass}.
Implicit Types (self : Converter) (inst : instance) (cfg : Config).

(** The converter [__init__] builds when neither check raises. *)
Definition built (cfg : Config) : Converter :=
  let computed : gset string :=
    list_to_set (OrderedDict.keys (OrderedDict.of_pairs (return_compute_fields cfg))) in
  let return_attrs : gset string :=
    dom (target_hints cfg) ∖ list_to_set (exclude_fields cfg) ∖ computed in
  {| _return_class := return_class cfg;
     _origin_class := origin_class cfg;
     _parsers_mapping := _setup_parsers;
     _compute_fields_mapping := OrderedDict.of_pairs (return_compute_fields cfg);
     origin_attrs := _get_origin_attrs (origin_class cfg);
     return_hints := target_hints cfg;
     return_attrs := return_attrs;
     origin_rename := (rename_pairs cfg).*1;
     return_rename := (rename_pairs cfg).*2;
     origin_contains :=
       (return_attrs ∖ list_to_set (rename_pairs cfg).*2)
       ∩ list_to_set (_get_origin_attrs (origin_class cfg)) |}.

(** The (origin name, target name) pairs of the rename pathway, in the
    order [_parse_rename] reads them. *)
Definition renamed self : list (string * string) :=
  zip (origin_rename self) (return_rename self).

(** [attr_from] is copied to [attr_to]: a same-name attribute or a
    renamed one. *)
Definition routed self (attr_from attr_to : string) : Prop :=
  (attr_from = attr_to ∧ attr_to ∈ origin_contains self)
  ∨ (attr_from, attr_to) ∈ renamed self.

(** [p] may be read before [q].  The same-name attributes are read before
    the renamed ones, in the unspecified order of a set; the renamed ones
    are read in the configured order. *)
Definition may_precede self (p q : string * string) : Prop :=
  (p.1 = p.2 ∧ p.2 ∈ origin_contains self ∧ p ≠ q)
  ∨ (∃ i j : nat, (i < j)%nat ∧ renamed self !! i = Some p
                  ∧ renamed self !! j = Some q).

(** What the two checks of [_setup_attrs] and its set algebra guarantee. *)
Record initialised self : Prop := {
  init_rename_NoDup : NoDup (renamed self).*2;
  init_compute_NoDup : NoDup (OrderedDict.keys (_compute_fields_mapping self));
  init_contains_not_renamed :
    ∀ a, a ∈ origin_contains self → a ∉ (renamed self).*2;
  init_contains_not_computed :
    ∀ a, a ∈ origin_contains self →
         a ∉ OrderedDict.keys (_compute_fields_mapping self);
  init_contains_hinted :
    ∀ a, a ∈ origin_contains self → is_Some (return_hints self !! a)
}.

(** The test that guards the [try] block. *)
Definition needs_parser (val : value) (return_type : pytype) : bool :=
  bool_decide (_get_origin_value_type val ≠ return_type)
  && bool_decide (Optional (_get_origin_value_type val) ≠ return_type)
  && negb (is_None val).

(** The [try] block fails on [val] with an exception its [except] clause
    catches: no parser under the pair of types, or a parser that raises
    [KeyError] or [ValueError]. *)
Definition rejected (self : Converter) (val : value)
    (return_type : pytype) (e : exn) : Prop :=
  (_parsers_mapping self !! (_get_origin_value_type val, return_type) = None
   ∧ e = KeyError (KTypes (_get_origin_value_type val) return_type))
  ∨ (∃ parser,
       _parsers_mapping self !! (_get_origin_value_type val, return_type) = Some parser
       ∧ __call__ parser val = Raise e
       ∧ is_KeyError_or_ValueError e = true).

End notions.

(* ===================================================================== *)
(** ** The tests of the repository *)
(* ===================================================================== *)

Example int_of_string_1 : Builtins.int_of_string "1" = Ok 1.
Proof. reflexivity. Qed.
Example int_of_string_blank : Builtins.int_of_string " -1_000 " = Ok (-1000).
Proof. reflexivity. Qed.
Example int_of_string_bad : Builtins.int_of_string "1__0" = Raise ValueError.
Proof. reflexivity. Qed.
Example int_of_string_empty : Builtins.int_of_string "" = Raise ValueError.
Proof. reflexivity. Qed.
Example int_of_string_separator :
  Builtins.int_of_string (String (ascii_of_nat 28) "1") = Raise ValueError.
Proof. reflexivity. Qed.
Example int_of_string_not_ascii :
  Builtins.int_of_string (String (ascii_of_nat 160) "1") = Raise Unmodelled.
Proof. reflexivity. Qed.
Example int_of_bytes_not_ascii :
  Builtins.int_of_bytes (String (ascii_of_nat 160) "1") = Raise ValueError.
Proof. reflexivity. Qed.
(** Beyond the limit of digits both conversions raise [ValueError]. *)
Lemma int_of_literal_limit (cs : list ascii) :
  Builtins.int_max_str_digits
    < Z.of_nat (length (List.filter Builtins.is_digit cs)) →
  Builtins.int_of_literal cs = Raise ValueError.
Proof.
  intros Hlen%Z.ltb_lt. unfold Builtins.int_of_literal.
  destruct (Builtins.numeral cs); [by rewrite Hlen|done].
Qed.

Lemma string_of_int_limit (z : Z) :
  Builtins.int_max_str_digits
    < Z.of_nat (String.length (Builtins.decimal (Z.abs z))) →
  Builtins.string_of_int z = Raise ValueError.
Proof. intros Hlen%Z.ltb_lt. unfold Builtins.string_of_int. by rewrite Hlen. Qed.

Example string_of_int_neg : Builtins.string_of_int (-12) = Ok "-12".
Proof. reflexivity. Qed.
Example string_of_int_0 : Builtins.string_of_int 0 = Ok "0".
Proof. reflexivity. Qed.

Example test_strint_parser : __call__ StrIntParser (VStr "1") = Ok (VInt 1).
Proof. reflexivity. Qed.
Example test_intstr_parser : __call__ IntStrParser (VInt 1) = Ok (VStr "1").
Proof. reflexivity. Qed.
Example test_none_base_parser : __call__ abstract_parser VNone = Ok VNone.
Proof. reflexivity. Qed.

Example test_convert :
  Tests.run Tests.ABConverter Tests.a = Ok Tests.b.
Proof. vm_compute. reflexivity. Qed.
Example test_convert_with_rename :
  Tests.run Tests.ACRenameConverter Tests.a
  = Ok {[ "attr1" := VInt 1; "attr2" := VInt 1; "attr3" := VInt 1 ]}.
Proof. vm_compute. reflexivity. Qed.
Example test_convert_with_compute :
  Tests.run Tests.ACComputeConverter Tests.a
  = Ok {[ "attr1" := VInt 1; "attr2" := VInt 1; "attr3" := VInt 1 ]}.
Proof. vm_compute. reflexivity. Qed.
Example test_parse_error :
  Tests.run Tests.ADConverter Tests.a
  = Raise (ParsingError "attr1" "attr1" (KeyError (KTypes int bytes))).
Proof. vm_compute. reflexivity. Qed.
Example test_config_error_empty_type_hints :
  __init__ Tests.EmptyTypeHints = Raise (ConfigError NoTypeHints).
Proof. vm_compute. reflexivity. Qed.
Example test_config_error_double_in_rename :
  __init__ Tests.DoubleRename
  = Raise (ConfigError (DuplicateRename ["attr2"; "attr2"])).
Proof. vm_compute. reflexivity. Qed.

(* ===================================================================== *)
(** ** Facts about dictionaries and sets *)
(* ===================================================================== *)

Section dict_facts.

Context `{Countable K} {V : Type}.

Lemma dict_fold_dom (pairs : list (K * V)) (d : gmap K V) :
  dom (fold_left (fun d kv => <[kv.1 := kv.2]> d) pairs d)
  = dom d ∪ list_to_set pairs.*1.
Proof.
  revert d. induction pairs as [|[k v] pairs IH]; intros d; simpl.
  - set_solver.
  - rewrite IH, dom_insert_L. set_solver.
Qed.

Lemma dom_dict (pairs : list (K * V)) :
  dom (dict pairs) = list_to_set pairs.*1.
Proof. unfold dict. rewrite dict_fold_dom. set_solver. Qed.

Lemma dict_nil : dict ([] : list (K * V)) = ∅.
Proof. reflexivity. Qed.

End dict_facts.

Lemma size_list_to_set_le (l : list string) :
  (size (list_to_set l : gset string) ≤ length l)%nat.
Proof.
  induction l as [|x l IH].
  - rewrite list_to_set_nil, size_empty. done.
  - rewrite list_to_set_cons. cbn [length].
    rewrite size_union_alt, size_singleton.
    assert (size (list_to_set l ∖ {[x]} : gset string)
            ≤ size (list_to_set l : gset string))%nat
      by (apply subseteq_size; set_solver).
    lia.
Qed.

(** [len(set(l)) == len(l)] says that [l] has no repeated element. *)
Lemma size_list_to_set_NoDup (l : list string) :
  size (list_to_set l : gset string) = length l ↔ NoDup l.
Proof.
  split; [|apply size_list_to_set].
  induction l as [|x l IH]; intros Hsz; [constructor|].
  rewrite list_to_set_cons in Hsz. cbn [length] in Hsz.
  pose proof (size_list_to_set_le l) as Hle.
  destruct (decide (x ∈ l)) as [Hin|Hnin].
  - assert (({[x]} ∪ list_to_set l : gset string) = list_to_set l) as Heq
      by set_solver.
    rewrite Heq in Hsz. lia.
  - constructor; [done|]. apply IH.
    rewrite size_union in Hsz by set_solver.
    rewrite size_singleton in Hsz. lia.
Qed.

Lemma repeated_target_not_NoDup (pairs : list (string * string)) :
  repeated_target pairs → ¬ NoDup pairs.*2.
Proof.
  intros (i & j & o1 & o2 & t & Hij & Hi & Hj) Hnd.
  apply Hij. eapply NoDup_lookup; [exact Hnd| |].
  - rewrite list_lookup_fmap, Hi. reflexivity.
  - rewrite list_lookup_fmap, Hj. reflexivity.
Qed.

Module OrderedDictFacts.
Import OrderedDict.

Section facts.
Context {V : Type}.
Implicit Types (d : t V) (key : string).

Lemma keys_setitem key v d :
  keys (setitem key v d) = if decide (key ∈ keys d) then keys d else keys d ++ [key].
Proof.
  unfold keys. induction d as [|[k w] d IH]; [done|].
  cbn [setitem]. rewrite fmap_cons. cbn [fst].
  destruct (decide (k = key)) as [->|Hne].
  - rewrite fmap_cons. cbn [fst].
    destruct (decide (key ∈ key :: d.*1)) as [|Hn]; [done|].
    exfalso. apply Hn. left.
  - rewrite fmap_cons, IH. cbn [fst].
    destruct (decide (key ∈ d.*1)) as [Hin|Hnin];
      destruct (decide (key ∈ k :: d.*1)) as [Hin'|Hnin']; try done.
    + exfalso. apply Hnin'. by right.
    + apply elem_of_cons in Hin' as [->|?]; done.
Qed.

Lemma NoDup_keys_setitem key v d : NoDup (keys d) → NoDup (keys (setitem key v d)).
Proof.
  intros Hnd. rewrite keys_setitem. case_decide; [done|].
  apply NoDup_app. split_and!; [done|set_solver|apply NoDup_singleton].
Qed.

Lemma elem_of_keys_setitem k key v d :
  k ∈ keys (setitem key v d) ↔ k = key ∨ k ∈ keys d.
Proof. rewrite keys_setitem. case_decide; set_solver. Qed.

Lemma of_pairs_fold_keys (pairs : list (string * V)) d :
  NoDup (keys d) →
  NoDup (keys (fold_left (fun d kv => setitem kv.1 kv.2 d) pairs d)) ∧
  ∀ k, k ∈ keys (fold_left (fun d kv => setitem kv.1 kv.2 d) pairs d)
       ↔ k ∈ keys d ∨ k ∈ pairs.*1.
Proof.
  revert d. induction pairs as [|[k0 v0] pairs IH]; intros d Hnd; simpl.
  - split; [done|]. set_solver.
  - destruct (IH (setitem k0 v0 d)) as [Hnd' Hin];
      [by apply NoDup_keys_setitem|].
    split; [done|]. intros k. rewrite Hin, elem_of_keys_setitem. set_solver.
Qed.

Lemma NoDup_keys_of_pairs (pairs : list (string * V)) : NoDup (keys (of_pairs pairs)).
Proof. apply of_pairs_fold_keys. constructor. Qed.

Lemma elem_of_keys_of_pairs (pairs : list (string * V)) k :
  k ∈ keys (of_pairs pairs) ↔ k ∈ pairs.*1.
Proof.
  unfold of_pairs.
  destruct (of_pairs_fold_keys pairs []) as [_ Hin]; [constructor|].
  rewrite Hin. set_solver.
Qed.

Lemma get_Some_elem_of d key f : get d key = Some f → (key, f) ∈ items d.
Proof.
  unfold items. induction d as [|[k w] d IH]; simpl; [done|].
  case_decide; [intros [= ->]; subst; left|right; auto].
Qed.

Lemma elem_of_get_Some d key f :
  NoDup (keys d) → (key, f) ∈ items d → get d key = Some f.
Proof.
  unfold items, keys. induction d as [|[k w] d IH]; simpl.
  - intros _ Hin. by apply elem_of_nil in Hin.
  - intros Hnd Hin. apply NoDup_cons in Hnd as [Hk Hnd].
    apply elem_of_cons in Hin as [[= -> ->]|Hin].
    + by rewrite decide_True.
    + rewrite decide_False; [by apply IH|].
      intros ->. apply Hk. apply list_elem_of_fmap.
      exists (key, f). done.
Qed.

(** With distinct names, every configured pair is an item of the dict. *)
Lemma setitem_fresh key v d : key ∉ keys d → setitem key v d = d ++ [(key, v)].
Proof.
  unfold keys. induction d as [|[k w] d IH]; simpl; [done|].
  intros Hnin. rewrite decide_False by set_solver.
  rewrite IH by set_solver. reflexivity.
Qed.

Lemma of_pairs_NoDup (pairs : list (string * V)) :
  NoDup pairs.*1 → of_pairs pairs = pairs.
Proof.
  unfold of_pairs.
  assert (∀ d, NoDup (d ++ pairs).*1 →
            fold_left (fun d kv => setitem kv.1 kv.2 d) pairs d = d ++ pairs) as Hgen.
  { induction pairs as [|[k v] pairs IH]; intros d Hnd; simpl.
    - by rewrite app_nil_r.
    - rewrite setitem_fresh.
      + rewrite IH; rewrite <- app_assoc; [done|exact Hnd].
      + rewrite fmap_app in Hnd. apply NoDup_app in Hnd as (_ & Hd & _).
        intros Hin. apply (Hd k Hin). simpl. left. }
  intros Hnd. apply (Hgen []). exact Hnd.
Qed.

End facts.
End OrderedDictFacts.

(* ===================================================================== *)
(** ** The two loops that fill a result dict *)
(* ===================================================================== *)

Section store_each.

Context {A : Type} (key : A → string) (step : A → outcome value).
Implicit Types (xs : list A) (acc res : gmap string value).

Lemma store_each_dom xs acc res :
  store_each key step xs acc = Ok res →
  dom res = dom acc ∪ list_to_set (key <$> xs).
Proof.
  revert acc. induction xs as [|x xs IH]; intros acc; simpl.
  - intros [= ->]. set_solver.
  - destruct (step x) as [v|e]; [|done]. intros Hres.
    rewrite (IH _ Hres), dom_insert_L. set_solver.
Qed.

Lemma store_each_lookup_other xs acc res k :
  store_each key step xs acc = Ok res →
  k ∉ key <$> xs → res !! k = acc !! k.
Proof.
  revert acc. induction xs as [|x xs IH]; intros acc; simpl.
  - by intros [= ->].
  - destruct (step x) as [v|e]; [|done]. intros Hres Hk.
    apply not_elem_of_cons in Hk as [Hne Hk].
    rewrite (IH _ Hres Hk). by apply lookup_insert_ne.
Qed.

Lemma store_each_lookup xs acc res x :
  store_each key step xs acc = Ok res →
  NoDup (key <$> xs) → x ∈ xs →
  ∃ v, step x = Ok v ∧ res !! key x = Some v.
Proof.
  revert acc. induction xs as [|y xs IH]; intros acc; simpl.
  - intros _ _ Hin. by apply elem_of_nil in Hin.
  - destruct (step y) as [v|e] eqn:Hy; [|done]. intros Hres Hnd Hin.
    apply NoDup_cons in Hnd as [Hy' Hnd].
    apply elem_of_cons in Hin as [->|Hin].
    + exists v. split; [done|].
      rewrite (store_each_lookup_other _ _ _ _ Hres Hy').
      apply lookup_insert_eq.
    + by apply (IH _ Hres).
Qed.

Lemma store_each_returns xs acc :
  Forall (fun x => returns (step x)) xs → returns (store_each key step xs acc).
Proof.
  intros Hall. revert acc.
  induction Hall as [|x xs [v Hv] _ IH]; intros acc; simpl.
  - by exists acc.
  - rewrite Hv. apply IH.
Qed.

Lemma store_each_Ok_Forall xs acc res :
  store_each key step xs acc = Ok res → Forall (fun x => returns (step x)) xs.
Proof.
  revert acc. induction xs as [|x xs IH]; intros acc; simpl; [constructor|].
  destruct (step x) as [v|e] eqn:Hx; [|done]. intros Hres.
  constructor; [by exists v|by eapply IH].
Qed.

(** The first step that raises decides the outcome. *)
Lemma store_each_raises pre x post acc e :
  Forall (fun x => returns (step x)) pre → step x = Raise e →
  store_each key step (pre ++ x :: post) acc = Raise e.
Proof.
  intros Hall Hx. revert acc.
  induction Hall as [|y pre [v Hv] _ IH]; intros acc; simpl.
  - by rewrite Hx.
  - rewrite Hv. apply IH.
Qed.

(** A step that raises anywhere keeps the loop from returning. *)
Lemma store_each_never_returns xs acc x e res :
  x ∈ xs → step x = Raise e → store_each key step xs acc ≠ Ok res.
Proof.
  intros Hin Hx Hres. apply store_each_Ok_Forall in Hres.
  rewrite Forall_forall in Hres. destruct (Hres x Hin) as [v Hv]. congruence.
Qed.

End store_each.

Section loops.

Context `{ConverterClass}.

Lemma parse_attrs_store_each self inst pairs acc :
  parse_attrs self inst pairs acc
  = store_each snd (fun p => parse_attr self inst p.1 p.2) pairs acc.
Proof.
  revert acc. induction pairs as [|[attr_from attr_to] pairs IH]; intros acc;
    simpl; [done|].
  destruct (parse_attr self inst attr_from attr_to); simpl; [apply IH|done].
Qed.

Lemma compute_attrs_store_each inst items acc :
  compute_attrs inst items acc
  = store_each fst (fun item => item.2 inst) items acc.
Proof.
  revert acc. induction items as [|[attr func] items IH]; intros acc;
    simpl; [done|].
  destruct (func inst); simpl; [apply IH|done].
Qed.

End loops.

(** [f( **a, **b, **c )] passes the union of the three dicts when no key
    is repeated and raises [TypeError] otherwise. *)
Lemma unpack_kwargs_three (a b c : gmap string value) :
  unpack_kwargs [a; b; c] ∅ =
  if decide (dom a ∩ dom b = ∅ ∧ dom a ∩ dom c = ∅ ∧ dom b ∩ dom c = ∅)
  then Ok (a ∪ b ∪ c) else Raise TypeError.
Proof.
  simpl. rewrite (left_id_L ∅ (∪) a).
  destruct (decide (dom (∅ : gmap string value) ∩ dom a = ∅)) as [_|Hn];
    [|exfalso; apply Hn; set_solver].
  destruct (decide (dom a ∩ dom b = ∅)) as [Hab|Hab].
  - destruct (decide (dom (a ∪ b) ∩ dom c = ∅)) as [Hc|Hc];
      rewrite dom_union_L in Hc.
    + rewrite decide_True; [done|]. set_solver.
    + rewrite decide_False; [done|]. set_solver.
  - rewrite decide_False; [done|]. set_solver.
Qed.

(* ===================================================================== *)
(** ** What [__init__] leaves on [self] *)
(* ===================================================================== *)

Section init_facts.

Context `{ConverterClass}.

Lemma _parse_rename_mapping_unzip (doublet : list (string * string)) :
  _parse_rename_mapping doublet = (doublet.*1, doublet.*2).
Proof.
  unfold _parse_rename_mapping.
  assert (∀ o r,
    fold_left (fun '(origin_rename, return_rename) (item : string * string) =>
                 (origin_rename ++ [item.1], return_rename ++ [item.2]))
              doublet (o, r) = (o ++ doublet.*1, r ++ doublet.*2)) as Hgen.
  { induction doublet as [|[a b] l IH]; intros o r; simpl.
    - by rewrite !app_nil_r.
    - rewrite IH, <- !app_assoc. done. }
  apply (Hgen [] []).
Qed.

Lemma __init___unfold (cfg : Config) :
  __init__ cfg =
  if decide (target_hints cfg = ∅) then Raise (ConfigError NoTypeHints)
  else if decide (NoDup (rename_pairs cfg).*2) then Ok (built cfg)
  else Raise (ConfigError (DuplicateRename (rename_pairs cfg).*2)).
Proof.
  unfold __init__, _setup_attrs. fold (target_hints cfg).
  rewrite _parse_rename_mapping_unzip.
  destruct (decide (size (target_hints cfg) = 0%nat)) as [Hsz|Hsz].
  { apply map_size_empty_iff in Hsz. by rewrite decide_True. }
  destruct (decide (target_hints cfg = ∅)) as [He|_].
  { exfalso. apply Hsz. by apply map_size_empty_iff. }
  destruct (decide (size (list_to_set (rename_pairs cfg).*2 : gset string)
                    ≠ length (rename_pairs cfg).*2)) as [Hd|Hd].
  - rewrite decide_False; [done|]. by intros ?%size_list_to_set_NoDup.
  - rewrite decide_True; [done|].
    apply size_list_to_set_NoDup.
    destruct (decide (size (list_to_set (rename_pairs cfg).*2 : gset string)
                      = length (rename_pairs cfg).*2)); done.
Qed.

Lemma __init___Ok (cfg : Config) (self : Converter) :
  __init__ cfg = Ok self →
  self = built cfg ∧ target_hints cfg ≠ ∅ ∧ NoDup (rename_pairs cfg).*2.
Proof.
  rewrite __init___unfold. repeat case_decide; try done.
  by intros [= <-].
Qed.

Lemma __init___succeeds (cfg : Config) :
  target_hints cfg ≠ ∅ → NoDup (rename_pairs cfg).*2 →
  __init__ cfg = Ok (built cfg).
Proof.
  intros Hh Hnd. rewrite __init___unfold.
  rewrite decide_False by done. by rewrite decide_True.
Qed.

End init_facts.

(* ===================================================================== *)
(** ** The three pathways of [convert] *)
(* ===================================================================== *)

Section convert_facts.

Context `{ConverterClass}.
Implicit Types (self : Converter) (inst : instance) (cfg : Config).

Lemma renamed_built cfg : renamed (built cfg) = rename_pairs cfg.
Proof. apply zip_fst_snd. Qed.

Lemma __init___initialised cfg self : __init__ cfg = Ok self → initialised self.
Proof.
  intros Hself. apply __init___Ok in Hself as (-> & _ & Hnd).
  split; rewrite ?renamed_built; simpl.
  - done.
  - apply OrderedDictFacts.NoDup_keys_of_pairs.
  - intros a Ha. set_solver.
  - intros a Ha. set_solver.
  - intros a Ha. apply elem_of_dom. set_solver.
Qed.

Lemma _parse_samename_store_each self inst (origin : list string) :
  _parse_samename self origin inst
  = store_each id (fun a => parse_attr self inst a a) origin ∅.
Proof.
  unfold _parse_samename, _parse_rename. generalize (∅ : gmap string value).
  induction origin as [|a origin IH]; intros acc; simpl; [done|].
  destruct (parse_attr self inst a a); simpl; [apply IH|done].
Qed.

Lemma _parse_rename_store_each self inst :
  _parse_rename self (origin_rename self) (return_rename self) inst
  = store_each snd (fun p => parse_attr self inst p.1 p.2) (renamed self) ∅.
Proof. apply parse_attrs_store_each. Qed.

Lemma _parse_need_compute_store_each self inst :
  _parse_need_compute self inst
  = store_each fst (fun item => item.2 inst) (_compute_fields_mapping self) ∅.
Proof. apply compute_attrs_store_each. Qed.

Lemma convert_results_Ok self inst c r n :
  convert_results self inst = Ok (c, r, n) ↔
  _parse_samename self (elements (origin_contains self)) inst = Ok c
  ∧ _parse_rename self (origin_rename self) (return_rename self) inst = Ok r
  ∧ _parse_need_compute self inst = Ok n.
Proof.
  unfold convert_results.
  destruct (_parse_samename _ _ _) as [c'|]; simpl; [|naive_solver].
  destruct (_parse_rename _ _ _ _) as [r'|]; simpl; [|naive_solver].
  destruct (_parse_need_compute _ _) as [n'|]; simpl; naive_solver.
Qed.

(** The keys of the three mappings are the three routing sets. *)
Lemma convert_results_dom self inst c r n :
  convert_results self inst = Ok (c, r, n) →
  dom c = origin_contains self
  ∧ dom r = list_to_set (renamed self).*2
  ∧ dom n = list_to_set (OrderedDict.keys (_compute_fields_mapping self)).
Proof.
  intros Hres. apply convert_results_Ok in Hres as (Hc & Hr & Hn).
  rewrite _parse_samename_store_each in Hc.
  rewrite _parse_rename_store_each in Hr.
  rewrite _parse_need_compute_store_each in Hn.
  apply store_each_dom in Hc, Hr, Hn.
  rewrite Hc, Hr, Hn, dom_empty_L, !(left_id_L ∅ (∪)).
  split_and!; [|done|done].
  rewrite list_fmap_id. apply list_to_set_elements_L.
Qed.

Lemma convert_kwargs_Ok self inst kwargs :
  convert_kwargs self inst = Ok kwargs ↔
  ∃ c r n, convert_results self inst = Ok (c, r, n)
           ∧ (dom c ∩ dom r = ∅ ∧ dom c ∩ dom n = ∅ ∧ dom r ∩ dom n = ∅)
           ∧ kwargs = c ∪ r ∪ n.
Proof.
  unfold convert_kwargs, mbind, outcome_bind.
  destruct (convert_results self inst) as [[[c r] n]|e].
  - rewrite unpack_kwargs_three. case_decide; naive_solver.
  - naive_solver.
Qed.

Lemma convert_Ok self inst obj :
  convert self inst = Ok obj ↔
  ∃ kwargs, convert_kwargs self inst = Ok kwargs
            ∧ cls_new (_return_class self) kwargs = Ok obj.
Proof.
  unfold convert. destruct (convert_kwargs self inst); simpl; naive_solver.
Qed.

(** What the constructor receives for a copied attribute. *)
Lemma routed_kwargs self inst attr_from attr_to v kwargs :
  initialised self → routed self attr_from attr_to →
  parse_attr self inst attr_from attr_to = Ok v →
  convert_kwargs self inst = Ok kwargs →
  kwargs !! attr_to = Some v.
Proof.
  intros Hinit Hroute Hv Hkw.
  apply convert_kwargs_Ok in Hkw as (c & r & n & Hres & _ & ->).
  pose proof (convert_results_dom _ _ _ _ _ Hres) as (Hdc & Hdr & Hdn).
  apply convert_results_Ok in Hres as (Hc & Hr & Hn).
  destruct Hroute as [[-> Hin]|Hin].
  - rewrite _parse_samename_store_each in Hc.
    eapply (store_each_lookup _ _ _ _ _ attr_to) in Hc as (v' & Hv' & Hlook).
    + simpl in Hlook. rewrite Hv in Hv'. injection Hv' as <-.
      apply lookup_union_Some_l, lookup_union_Some_l. exact Hlook.
    + rewrite list_fmap_id. apply NoDup_elements.
    + by apply elem_of_elements.
  - rewrite _parse_rename_store_each in Hr.
    eapply (store_each_lookup _ _ _ _ _ (attr_from, attr_to)) in Hr
      as (v' & Hv' & Hlook); [|apply Hinit|done].
    simpl in Hv', Hlook. rewrite Hv in Hv'. injection Hv' as <-.
    apply lookup_union_Some_l. rewrite lookup_union_r; [done|].
    apply not_elem_of_dom. rewrite Hdc. intros Hoc.
    apply (init_contains_not_renamed _ Hinit _ Hoc).
    apply list_elem_of_fmap. by exists (attr_from, attr_to).
Qed.

(** What the constructor receives for a computed attribute. *)
Lemma computed_kwargs self inst attr func kwargs :
  initialised self →
  OrderedDict.get (_compute_fields_mapping self) attr = Some func →
  convert_kwargs self inst = Ok kwargs →
  ∃ v, func inst = Ok v ∧ kwargs !! attr = Some v.
Proof.
  intros Hinit Hget Hkw.
  apply convert_kwargs_Ok in Hkw as (c & r & n & Hres & (Hcr & Hcn & Hrn) & ->).
  pose proof (convert_results_dom _ _ _ _ _ Hres) as (Hdc & Hdr & Hdn).
  apply convert_results_Ok in Hres as (Hc & Hr & Hn).
  rewrite _parse_need_compute_store_each in Hn.
  apply OrderedDictFacts.get_Some_elem_of in Hget.
  eapply (store_each_lookup _ _ _ _ _ (attr, func)) in Hn
    as (v & Hv & Hlook); [|apply Hinit|exact Hget].
  simpl in Hv, Hlook. exists v. split; [done|].
  assert (attr ∈ dom n) as Hin by (apply elem_of_dom; eauto).
  rewrite lookup_union_r; [done|].
  apply not_elem_of_dom. rewrite dom_union_L. set_solver.
Qed.

End convert_facts.

Section convert_failures.

Context `{ConverterClass}.
Implicit Types (self : Converter) (inst : instance) (cfg : Config).

Lemma convert_results_Raise_samename self inst e :
  _parse_samename self (elements (origin_contains self)) inst = Raise e →
  convert_results self inst = Raise e.
Proof. unfold convert_results. by intros ->. Qed.

Lemma convert_results_Raise_rename self inst c e :
  _parse_samename self (elements (origin_contains self)) inst = Ok c →
  _parse_rename self (origin_rename self) (return_rename self) inst = Raise e →
  convert_results self inst = Raise e.
Proof. unfold convert_results. by intros -> ->. Qed.

Lemma convert_Raise self inst e :
  convert_results self inst = Raise e → convert self inst = Raise e.
Proof. unfold convert, convert_kwargs. by intros ->. Qed.

(** An attribute whose step raises keeps [convert] from building its
    three mappings, wherever it stands in the order. *)
Lemma routed_Raise_never_returns self inst attr_from attr_to e res :
  routed self attr_from attr_to →
  parse_attr self inst attr_from attr_to = Raise e →
  convert_results self inst ≠ Ok res.
Proof.
  intros Hroute He Hres. destruct res as [[c r] n].
  apply convert_results_Ok in Hres as (Hc & Hr & _).
  destruct Hroute as [[-> Hin]|Hin].
  - rewrite _parse_samename_store_each in Hc.
    eapply (store_each_never_returns id (fun a => parse_attr self inst a a)
              _ _ attr_to e c); [|exact He|exact Hc].
    by apply elem_of_elements.
  - rewrite _parse_rename_store_each in Hr.
    eapply (store_each_never_returns snd (fun p => parse_attr self inst p.1 p.2)
              _ _ (attr_from, attr_to) e r); [exact Hin|exact He|exact Hr].
Qed.

Lemma routed_Raise_convert_fails self inst attr_from attr_to e obj :
  routed self attr_from attr_to →
  parse_attr self inst attr_from attr_to = Raise e →
  convert self inst ≠ Ok obj.
Proof.
  intros Hroute He Hobj.
  apply convert_Ok in Hobj as (kwargs & Hkw & _).
  apply convert_kwargs_Ok in Hkw as (c & r & n & Hres & _).
  by eapply routed_Raise_never_returns.
Qed.

(** The exception of an attribute reaches the caller of [convert] when
    nothing that may be read before it raises. *)
Lemma routed_Raise_convert self inst attr_from attr_to e :
  initialised self →
  routed self attr_from attr_to →
  parse_attr self inst attr_from attr_to = Raise e →
  (∀ p, may_precede self p (attr_from, attr_to) →
        returns (parse_attr self inst p.1 p.2)) →
  convert self inst = Raise e.
Proof.
  intros Hinit Hroute He Hbefore. apply convert_Raise.
  destruct Hroute as [[-> Hin]|Hin].
  - apply convert_results_Raise_samename.
    rewrite _parse_samename_store_each.
    pose proof (NoDup_elements (origin_contains self)) as Hnd.
    apply elem_of_elements, list_elem_of_split in Hin as (pre & post & Hsplit).
    rewrite Hsplit in Hnd |- *.
    apply store_each_raises; [|exact He].
    apply Forall_forall. intros a Ha.
    apply (Hbefore (a, a)). left. simpl. split_and!; [done| |].
    + apply elem_of_elements. rewrite Hsplit. set_solver.
    + intros [= ->]. apply NoDup_app in Hnd as (_ & Hnd & _).
      apply (Hnd attr_to Ha). left.
  - assert (returns (_parse_samename self (elements (origin_contains self)) inst))
      as [c Hc].
    { rewrite _parse_samename_store_each. apply store_each_returns.
      apply Forall_forall. intros a Ha%elem_of_elements.
      apply (Hbefore (a, a)). left. simpl. split_and!; [done..|].
      intros [= -> ->].
      apply (init_contains_not_renamed _ Hinit _ Ha).
      apply list_elem_of_fmap. by exists (attr_to, attr_to). }
    apply (convert_results_Raise_rename _ _ c); [exact Hc|].
    rewrite _parse_rename_store_each.
    apply list_elem_of_lookup in Hin as [j Hj].
    rewrite <- (take_drop_middle _ _ _ Hj).
    apply store_each_raises; [|exact He].
    apply Forall_forall. intros p Hp.
    apply list_elem_of_lookup in Hp as [i Hi].
    apply lookup_take_Some in Hi as [Hi Hlt].
    apply Hbefore. right. by exists i, j.
Qed.

(** [convert] reaches the constructor call when every step returns and
    no renamed target is also computed. *)
Lemma convert_kwargs_returns self inst :
  initialised self →
  (∀ attr_from attr_to, routed self attr_from attr_to →
                        returns (parse_attr self inst attr_from attr_to)) →
  (∀ attr func, (attr, func) ∈ OrderedDict.items (_compute_fields_mapping self) →
                returns (func inst)) →
  (∀ t, t ∈ (renamed self).*2 →
        t ∉ OrderedDict.keys (_compute_fields_mapping self)) →
  returns (convert_kwargs self inst).
Proof.
  intros Hinit Hsteps Hfuncs Hdisj.
  assert (returns (_parse_samename self (elements (origin_contains self)) inst))
    as [c Hc].
  { rewrite _parse_samename_store_each. apply store_each_returns.
    apply Forall_forall. intros a Ha%elem_of_elements.
    apply Hsteps. by left. }
  assert (returns (_parse_rename self (origin_rename self) (return_rename self) inst))
    as [r Hr].
  { rewrite _parse_rename_store_each. apply store_each_returns.
    apply Forall_forall. intros [a b] Hp. apply Hsteps. by right. }
  assert (returns (_parse_need_compute self inst)) as [n Hn].
  { rewrite _parse_need_compute_store_each. apply store_each_returns.
    apply Forall_forall. intros [a f] Hp. by apply (Hfuncs a f). }
  assert (convert_results self inst = Ok (c, r, n)) as Hres
    by (by apply convert_results_Ok).
  pose proof (convert_results_dom _ _ _ _ _ Hres) as (Hdc & Hdr & Hdn).
  exists (c ∪ r ∪ n). apply convert_kwargs_Ok. exists c, r, n.
  split_and!; try done; rewrite ?Hdc, ?Hdr, ?Hdn.
  - pose proof (init_contains_not_renamed _ Hinit). set_solver.
  - pose proof (init_contains_not_computed _ Hinit). set_solver.
  - set_solver.
Qed.

End convert_failures.

(* ===================================================================== *)
(** ** One attribute: the body of the loop of [_parse_rename] *)
(* ===================================================================== *)

Section parse_attr_facts.

Context `{ConverterClass}.
Implicit Types (self : Converter) (inst : instance) (val : value).

Lemma parse_attr_unfold self inst attr_from attr_to val return_type :
  inst !! attr_from = Some val →
  return_hints self !! attr_to = Some return_type →
  parse_attr self inst attr_from attr_to =
  if needs_parser val return_type then
    match
      match _parsers_mapping self !! (_get_origin_value_type val, return_type) with
      | Some parser => __call__ parser val
      | None => Raise (KeyError (KTypes (_get_origin_value_type val) return_type))
      end
    with
    | Ok val => Ok val
    | Raise e =>
        if is_KeyError_or_ValueError e
        then Raise (ParsingError attr_from attr_to e) else Raise e
    end
  else Ok val.
Proof.
  intros Hval Hhint. unfold parse_attr, getattr, getitem, needs_parser.
  rewrite Hval, Hhint. reflexivity.
Qed.

Lemma parse_attr_None self inst attr_from attr_to return_type :
  inst !! attr_from = Some VNone →
  return_hints self !! attr_to = Some return_type →
  parse_attr self inst attr_from attr_to = Ok VNone.
Proof.
  intros Hval Hhint. rewrite (parse_attr_unfold _ _ _ _ _ _ Hval Hhint).
  unfold needs_parser. simpl. by rewrite andb_false_r.
Qed.

Lemma parse_attr_no_hint self inst attr_from attr_to val :
  inst !! attr_from = Some val →
  return_hints self !! attr_to = None →
  parse_attr self inst attr_from attr_to = Raise (KeyError (KName attr_to)).
Proof.
  intros Hval Hhint. unfold parse_attr, getattr, getitem.
  rewrite Hval, Hhint. reflexivity.
Qed.

Lemma parse_attr_no_attr self inst attr_from attr_to :
  inst !! attr_from = None →
  parse_attr self inst attr_from attr_to = Raise (AttributeError attr_from).
Proof. intros Hval. unfold parse_attr, getattr. by rewrite Hval. Qed.

End parse_attr_facts.

(* ===================================================================== *)
(** ** The default registry *)
(* ===================================================================== *)

(** The three keys of each of the two default parsers. *)
Lemma _setup_parsers_default_keys :
  dom (@_setup_parsers BaseConverter)
  = {[ (str, Optional int); (Optional str, Optional int); (str, int);
       (int, Optional str); (Optional int, Optional str); (int, str) ]}.
Proof. reflexivity. Qed.

Lemma _setup_parsers_default_str_int :
  @_setup_parsers BaseConverter !! (str, int) = Some StrIntParser.
Proof. reflexivity. Qed.

Lemma _setup_parsers_default_int_str :
  @_setup_parsers BaseConverter !! (int, str) = Some IntStrParser.
Proof. reflexivity. Qed.

(** Both converter classes observe a class, never an [Optional] form: an
    observed type that is [Optional] of the declared one is the declared
    one. *)
Lemma type_of_Optional (val : value) (return_type : pytype) :
  type_of val = Optional return_type → type_of val = return_type.
Proof. destruct val, return_type; cbv; congruence. Qed.

Lemma DjangoConverter_type_Optional (val : value) (return_type : pytype) :
  @_get_origin_value_type DjangoConverter val = Optional return_type →
  @_get_origin_value_type DjangoConverter val = return_type.
Proof.
  simpl. destruct (hasattr val "all"); [|apply type_of_Optional].
  destruct return_type; cbv; congruence.
Qed.

(* ===================================================================== *)
(** ** Properties of [convert]: copied attributes *)
(* ===================================================================== *)

(** Closed goals on concrete converters are settled by evaluation. *)
Ltac by_evaluation :=
  lazymatch goal with
  | |- __init__ _ = Ok (built _) => apply __init___succeeds; by_evaluation
  | |- routed _ ?a ?a => left; split; [reflexivity|by_evaluation]
  | |- routed _ _ _ => right; by_evaluation
  | |- _ = _ => reflexivity
  | |- _ => apply (bool_decide_unpack _); exact I
  end.



(** [convert] passes [v] for a copied attribute as soon as the other
    attributes are read and converted, the functions of the computed
    attributes return and no rename target is computed. *)
Lemma routed_kwargs_returns `{ConverterClass}
    (cfg : Config) (self : Converter) (inst : instance)
    (attr_from attr_to : string) (v : value) :
  __init__ cfg = Ok self →
  routed self attr_from attr_to →
  parse_attr self inst attr_from attr_to = Ok v →
  (∀ a b, routed self a b → (a, b) ≠ (attr_from, attr_to) →
          returns (parse_attr self inst a b)) →
  (∀ attr func,
     (attr, func) ∈ OrderedDict.items (_compute_fields_mapping self) →
     returns (func inst)) →
  (∀ t, t ∈ (rename_pairs cfg).*2 → t ∉ (return_compute_fields cfg).*1) →
  ∃ kwargs, convert_kwargs self inst = Ok kwargs
            ∧ kwargs !! attr_to = Some v
            ∧ convert self inst = cls_new (return_class cfg) kwargs.
Proof.
  intros Hinit Hroute Hv Hothers Hfuncs Hdisj.
  pose proof (__init___initialised _ _ Hinit) as Hwf.
  assert (returns (convert_kwargs self inst)) as [kwargs Hkw].
  { apply convert_kwargs_returns; [done| |done|].
    - intros a b Hab.
      destruct (decide ((a, b) = (attr_from, attr_to))) as [[= -> ->]|Hne];
        [by eexists|by apply Hothers].
    - apply __init___Ok in Hinit as (-> & _). rewrite renamed_built. simpl.
      intros t Ht Hc. rewrite OrderedDictFacts.elem_of_keys_of_pairs in Hc.
      by apply (Hdisj t). }
  exists kwargs. split_and!; [done|by eapply routed_kwargs|].
  unfold convert. rewrite Hkw. simpl.
  by apply __init___Ok in Hinit as (-> & _).
Qed.

(** C2.  A same-name or renamed attribute whose observed type is the
    declared type of the target attribute, or whose declared type is
    [Optional] of the observed one, skips the [try] block: whatever parsers
    are registered, the value read is stored unchanged for the target
    attribute, in the step of the loop, in the keyword arguments of the
    constructor and for the constructed object.  [convert] does call the
    constructor with that value when the other attributes are read and
    converted, the functions of the computed attributes return and no
    rename target is computed; with [A(attr1: int, attr2: str)],
    [C(attr1, attr2, attr3: int)] and the rename [attr1 -> attr3],
    converting [A(1, "1")] gives [C(1, 1, 1)]. *)
Theorem convert_passes_matching_value `{ConverterClass}
    (cfg : Config) (self : Converter) (inst : instance)
    (attr_from attr_to : string) (val : value) (return_type : pytype) :
  __init__ cfg = Ok self →
  routed self attr_from attr_to →
  inst !! attr_from = Some val →
  return_hints self !! attr_to = Some return_type →
  _get_origin_value_type val = return_type
    ∨ Optional (_get_origin_value_type val) = return_type →
  needs_parser val return_type = false
  ∧ parse_attr self inst attr_from attr_to = Ok val
  ∧ (∀ kwargs, convert_kwargs self inst = Ok kwargs → kwargs !! attr_to = Some val)
  ∧ (∀ obj, convert self inst = Ok obj →
       ∃ kwargs, cls_new (return_class cfg) kwargs = Ok obj
                 ∧ kwargs !! attr_to = Some val)
  ∧ ((∀ a b, routed self a b → (a, b) ≠ (attr_from, attr_to) →
             returns (parse_attr self inst a b)) →
     (∀ attr func,
        (attr, func) ∈ OrderedDict.items (_compute_fields_mapping self) →
        returns (func inst)) →
     (∀ t, t ∈ (rename_pairs cfg).*2 → t ∉ (return_compute_fields cfg).*1) →
     ∃ kwargs, convert_kwargs self inst = Ok kwargs
               ∧ kwargs !! attr_to = Some val
               ∧ convert self inst = cls_new (return_class cfg) kwargs)
  ∧ Tests.run Tests.ACRenameConverter Tests.a
    = Ok {[ "attr1" := VInt 1; "attr2" := VInt 1; "attr3" := VInt 1 ]}.
Proof.
  intros Hinit Hroute Hval Hhint Hmatch.
  assert (needs_parser val return_type = false) as Hskip.
  { unfold needs_parser. destruct Hmatch as [Heq|Heq].
    - by rewrite (bool_decide_eq_false_2 (_ ≠ _)) by (by intros ?).
    - rewrite (bool_decide_eq_false_2 (Optional _ ≠ _)) by (by intros ?).
      by rewrite andb_false_r. }
  assert (parse_attr self inst attr_from attr_to = Ok val) as Hstep.
  { by rewrite (parse_attr_unfold _ _ _ _ _ _ Hval Hhint), Hskip. }
  pose proof (__init___initialised _ _ Hinit) as Hwf.
  split_and!; [done|done| | | |reflexivity].
  - intros kwargs Hkw. by eapply routed_kwargs.
  - intros obj Hobj. apply convert_Ok in Hobj as (kwargs & Hkw & Hnew).
    exists kwargs. split.
    + apply __init___Ok in Hinit as (-> & _). exact Hnew.
    + by eapply routed_kwargs.
  - by apply routed_kwargs_returns.
Qed.

Lemma convert_passes_matching_value_witness :
  routed (built Tests.ACRenameConverter) "attr1" "attr3"
  ∧ Tests.a !! "attr1" = Some (VInt 1)
  ∧ return_hints (built Tests.ACRenameConverter) !! "attr3" = Some int
  ∧ parse_attr (built Tests.ACRenameConverter) Tests.a "attr1" "attr3" = Ok (VInt 1)
  ∧ (∀ kwargs, convert_kwargs (built Tests.ACRenameConverter) Tests.a = Ok kwargs →
               kwargs !! "attr3" = Some (VInt 1))
  ∧ convert_kwargs (built Tests.ACRenameConverter) Tests.a
    = Ok {[ "attr1" := VInt 1; "attr2" := VInt 1; "attr3" := VInt 1 ]}
  ∧ convert (built Tests.ACRenameConverter) Tests.a
    = Ok {[ "attr1" := VInt 1; "attr2" := VInt 1; "attr3" := VInt 1 ]}.
Proof.
  split_and!; [by_evaluation..| | |by_evaluation|by_evaluation];
    apply (convert_passes_matching_value
             Tests.ACRenameConverter (built Tests.ACRenameConverter) Tests.a
             "attr1" "attr3" (VInt 1) int);
    first [ by_evaluation | left; reflexivity ].
Defined.

(** C4 as stated fails: the renamed attribute [attr2 -> zzz] holds [None],
    [zzz] has no declared type, and the lookup of the target type raises
    [KeyError] before the test for [None]. *)
Lemma None_into_unhinted_rename_target :
  __init__ Unhinted.Reached = Ok (built Unhinted.Reached)
  ∧ routed (built Unhinted.Reached) "attr2" "zzz"
  ∧ NoneTests.a_none !! "attr2" = Some VNone
  ∧ return_hints (built Unhinted.Reached) !! "zzz" = None
  ∧ parse_attr (built Unhinted.Reached) NoneTests.a_none "attr2" "zzz"
    = Raise (KeyError (KName "zzz"))
  ∧ convert (built Unhinted.Reached) NoneTests.a_none
    = Raise (KeyError (KName "zzz")).
Proof. split_and!; by_evaluation. Qed.

(** C4, amended.  A same-name or renamed attribute whose value is [None]
    and whose target attribute has a declared type — every same-name
    attribute has one — skips the [try] block whatever that type is and
    whatever parsers are registered: [None] is stored for the target
    attribute, in the step of the loop, in the keyword arguments of the
    constructor and for the constructed object, and [convert] does call the
    constructor with it when the other attributes are read and converted,
    the functions of the computed attributes return and no rename target
    is computed.  For a renamed attribute whose target has no declared
    type, the lookup of the target type raises [KeyError] before the test
    for [None].  Converting [A(1, None)] to [B] gives [B(1, None)]. *)
Theorem convert_passes_None `{ConverterClass}
    (cfg : Config) (self : Converter) (inst : instance)
    (attr_from attr_to : string) :
  __init__ cfg = Ok self →
  routed self attr_from attr_to →
  inst !! attr_from = Some VNone →
  (attr_from = attr_to ∧ attr_to ∈ origin_contains self →
     is_Some (return_hints self !! attr_to))
  ∧ (return_hints self !! attr_to = None →
       parse_attr self inst attr_from attr_to = Raise (KeyError (KName attr_to)))
  ∧ (∀ return_type, return_hints self !! attr_to = Some return_type →
       needs_parser VNone return_type = false
       ∧ parse_attr self inst attr_from attr_to = Ok VNone
       ∧ (∀ kwargs, convert_kwargs self inst = Ok kwargs →
                    kwargs !! attr_to = Some VNone)
       ∧ (∀ obj, convert self inst = Ok obj →
            ∃ kwargs, cls_new (return_class cfg) kwargs = Ok obj
                      ∧ kwargs !! attr_to = Some VNone)
       ∧ ((∀ a b, routed self a b → (a, b) ≠ (attr_from, attr_to) →
                  returns (parse_attr self inst a b)) →
          (∀ attr func,
             (attr, func) ∈ OrderedDict.items (_compute_fields_mapping self) →
             returns (func inst)) →
          (∀ t, t ∈ (rename_pairs cfg).*2 → t ∉ (return_compute_fields cfg).*1) →
          ∃ kwargs, convert_kwargs self inst = Ok kwargs
                    ∧ kwargs !! attr_to = Some VNone
                    ∧ convert self inst = cls_new (return_class cfg) kwargs))
  ∧ Tests.run Tests.ABConverter NoneTests.a_none
    = Ok {[ "attr1" := VInt 1; "attr2" := VNone ]}.
Proof.
  intros Hinit Hroute Hval.
  pose proof (__init___initialised _ _ Hinit) as Hwf.
  split_and!; [| | |reflexivity].
  - intros [_ Hin]. by apply (init_contains_hinted _ Hwf).
  - intros Hhint. by apply (parse_attr_no_hint _ _ _ _ VNone).
  - intros return_type Hhint.
    pose proof (parse_attr_None _ _ _ _ _ Hval Hhint) as Hstep.
    split_and!.
    + unfold needs_parser. simpl. apply andb_false_r.
    + exact Hstep.
    + intros kwargs Hkw. by eapply routed_kwargs.
    + intros obj Hobj. apply convert_Ok in Hobj as (kwargs & Hkw & Hnew).
      exists kwargs. split.
      * apply __init___Ok in Hinit as (-> & _). exact Hnew.
      * by eapply routed_kwargs.
    + by apply routed_kwargs_returns.
Qed.

Lemma convert_passes_None_witness :
  routed (built Tests.ABConverter) "attr2" "attr2"
  ∧ NoneTests.a_none !! "attr2" = Some VNone
  ∧ return_hints (built Tests.ABConverter) !! "attr2" = Some int
  ∧ parse_attr (built Tests.ABConverter) NoneTests.a_none "attr2" "attr2" = Ok VNone
  ∧ (∀ kwargs, convert_kwargs (built Tests.ABConverter) NoneTests.a_none = Ok kwargs →
               kwargs !! "attr2" = Some VNone)
  ∧ convert_kwargs (built Tests.ABConverter) NoneTests.a_none
    = Ok {[ "attr1" := VInt 1; "attr2" := VNone ]}
  ∧ convert (built Tests.ABConverter) NoneTests.a_none
    = Ok {[ "attr1" := VInt 1; "attr2" := VNone ]}.
Proof.
  assert (__init__ Tests.ABConverter = Ok (built Tests.ABConverter)) as Hinit
    by by_evaluation.
  assert (routed (built Tests.ABConverter) "attr2" "attr2") as Hroute
    by by_evaluation.
  assert (NoneTests.a_none !! "attr2" = Some VNone) as Hval by by_evaluation.
  assert (return_hints (built Tests.ABConverter) !! "attr2" = Some int) as Hhint
    by by_evaluation.
  destruct (convert_passes_None Tests.ABConverter (built Tests.ABConverter)
              NoneTests.a_none "attr2" "attr2" Hinit Hroute Hval)
    as (_ & _ & Hnone & _).
  destruct (Hnone int Hhint) as (_ & Hstep & Hkw & _).
  split_and!; [done..|by_evaluation|by_evaluation].
Defined.

(* ===================================================================== *)
(** ** Properties of [convert]: computed attributes *)
(* ===================================================================== *)

Lemma OrderedDict_get_setitem {V} (d : OrderedDict.t V) (k key : string) (v : V) :
  OrderedDict.get (OrderedDict.setitem k v d) key
  = if decide (k = key) then Some v else OrderedDict.get d key.
Proof.
  induction d as [|[k' w] d IH]; simpl.
  - by destruct (decide (k = key)).
  - destruct (decide (k' = k)) as [->|Hne]; simpl.
    + by destruct (decide (k = key)).
    + rewrite IH. destruct (decide (k' = key)) as [->|]; [|done].
      by rewrite decide_False by done.
Qed.

Lemma OrderedDict_get_of_pairs {V} (pairs : list (string * V)) (key : string) :
  OrderedDict.get (OrderedDict.of_pairs pairs) key
  = snd <$> last (filter (fun kv => kv.1 = key) pairs).
Proof.
  unfold OrderedDict.of_pairs.
  induction pairs as [|[k v] pairs IH] using rev_ind; [done|].
  rewrite fold_left_app, filter_app. cbn [fold_left fst snd].
  rewrite OrderedDict_get_setitem, IH.
  destruct (decide (k = key)) as [->|Hne].
  - rewrite filter_cons_True by done. by rewrite filter_nil, last_snoc.
  - rewrite filter_cons_False by done. by rewrite filter_nil, app_nil_r.
Qed.

(** With distinct target names, each pair of [return_compute_fields] is an
    entry of [_compute_fields_mapping]; in general the entry of a name is
    the last pair configured for it. *)
Lemma configured_compute_field `{ConverterClass}
    (cfg : Config) (self : Converter) (target_name : string)
    (compute_fn : instance → outcome value) :
  __init__ cfg = Ok self →
  NoDup (return_compute_fields cfg).*1 →
  (target_name, compute_fn) ∈ return_compute_fields cfg →
  OrderedDict.get (_compute_fields_mapping self) target_name = Some compute_fn.
Proof.
  intros Hinit Hnd Hin. apply __init___Ok in Hinit as (-> & _). simpl.
  rewrite OrderedDictFacts.of_pairs_NoDup by done.
  by apply OrderedDictFacts.elem_of_get_Some.
Qed.

(** [convert] passes the value of a computed attribute as soon as the
    copied attributes are read and converted, the other functions return
    and no rename target is computed. *)
Lemma computed_kwargs_returns `{ConverterClass}
    (cfg : Config) (self : Converter) (inst : instance)
    (target_name : string) (compute_fn : instance → outcome value) (v : value) :
  __init__ cfg = Ok self →
  OrderedDict.get (_compute_fields_mapping self) target_name = Some compute_fn →
  compute_fn inst = Ok v →
  (∀ a b, routed self a b → returns (parse_attr self inst a b)) →
  (∀ attr func,
     (attr, func) ∈ OrderedDict.items (_compute_fields_mapping self) →
     attr ≠ target_name → returns (func inst)) →
  (∀ t, t ∈ (rename_pairs cfg).*2 → t ∉ (return_compute_fields cfg).*1) →
  ∃ kwargs, convert_kwargs self inst = Ok kwargs
            ∧ kwargs !! target_name = Some v
            ∧ convert self inst = cls_new (return_class cfg) kwargs.
Proof.
  intros Hinit Hget Hv Hsteps Hothers Hdisj.
  pose proof (__init___initialised _ _ Hinit) as Hwf.
  assert (returns (convert_kwargs self inst)) as [kwargs Hkw].
  { apply convert_kwargs_returns; [done|done| |].
    - intros attr func Hin.
      destruct (decide (attr = target_name)) as [->|Hne]; [|by eapply Hothers].
      apply OrderedDictFacts.elem_of_get_Some in Hin; [|apply Hwf].
      rewrite Hget in Hin. injection Hin as <-. by eexists.
    - apply __init___Ok in Hinit as (-> & _). rewrite renamed_built. simpl.
      intros t Ht Hc. rewrite OrderedDictFacts.elem_of_keys_of_pairs in Hc.
      by apply (Hdisj t). }
  exists kwargs.
  destruct (computed_kwargs _ _ _ _ _ Hwf Hget Hkw) as (v' & Hv' & Hlook).
  split_and!; [done|congruence|].
  unfold convert. rewrite Hkw. simpl.
  by apply __init___Ok in Hinit as (-> & _).
Qed.

(** C5 as stated fails: [attr3] is configured with [x.attr2] and then with
    [x.attr1]; for the configured pair [(attr3, x.attr2)] the function
    gives ["1"], and the target attribute receives [1], the value of the
    last pair. *)
Lemma repeated_compute_field_uses_last_function :
  ("attr3", fun x : instance => getattr x "attr2")
    ∈ return_compute_fields MoreTests.ComputeTwice
  ∧ getattr Tests.a "attr2" = Ok (VStr "1")
  ∧ __init__ MoreTests.ComputeTwice = Ok (built MoreTests.ComputeTwice)
  ∧ convert_kwargs (built MoreTests.ComputeTwice) Tests.a
    = Ok {[ "attr1" := VInt 1; "attr2" := VInt 1; "attr3" := VInt 1 ]}
  ∧ convert (built MoreTests.ComputeTwice) Tests.a
    = Ok {[ "attr1" := VInt 1; "attr2" := VInt 1; "attr3" := VInt 1 ]}.
Proof. split_and!; [apply list_elem_of_here|by_evaluation..]. Qed.

(** C5, amended.  For a configured pair [(target_name, compute_fn)] that
    is the last pair of [return_compute_fields] for [target_name] — every
    configured pair when the target names are distinct — the value stored
    for [target_name] is the value [compute_fn(instance)] returns, whatever
    its type and whatever type the target declares: in the mapping
    [_parse_need_compute] returns, in the keyword arguments of the
    constructor and for the constructed object.  [convert] does call the
    constructor with that value when the copied attributes are read and
    converted, the other functions return and no rename target is
    computed; an exception of [compute_fn] keeps [convert] from returning.
    With [compute_fields = [("attr3", lambda x: x.attr1)]] converting
    [A(1, "1")] gives [C(1, 1, 1)]. *)
Theorem convert_computes_attribute `{ConverterClass}
    (cfg : Config) (self : Converter) (inst : instance)
    (target_name : string) (compute_fn : instance → outcome value) :
  __init__ cfg = Ok self →
  snd <$> last (filter (fun kv => kv.1 = target_name) (return_compute_fields cfg))
    = Some compute_fn →
  OrderedDict.get (_compute_fields_mapping self) target_name = Some compute_fn
  ∧ (∀ n, _parse_need_compute self inst = Ok n →
       ∃ v, compute_fn inst = Ok v ∧ n !! target_name = Some v)
  ∧ (∀ kwargs, convert_kwargs self inst = Ok kwargs →
       ∃ v, compute_fn inst = Ok v ∧ kwargs !! target_name = Some v)
  ∧ (∀ obj, convert self inst = Ok obj →
       ∃ kwargs v, cls_new (return_class cfg) kwargs = Ok obj
                   ∧ compute_fn inst = Ok v ∧ kwargs !! target_name = Some v)
  ∧ (∀ e obj, compute_fn inst = Raise e → convert self inst ≠ Ok obj)
  ∧ (∀ v, compute_fn inst = Ok v →
       (∀ a b, routed self a b → returns (parse_attr self inst a b)) →
       (∀ attr func,
          (attr, func) ∈ OrderedDict.items (_compute_fields_mapping self) →
          attr ≠ target_name → returns (func inst)) →
       (∀ t, t ∈ (rename_pairs cfg).*2 → t ∉ (return_compute_fields cfg).*1) →
       ∃ kwargs, convert_kwargs self inst = Ok kwargs
                 ∧ kwargs !! target_name = Some v
                 ∧ convert self inst = cls_new (return_class cfg) kwargs)
  ∧ (NoDup (return_compute_fields cfg).*1 →
     ∀ name fn, (name, fn) ∈ return_compute_fields cfg →
       snd <$> last (filter (fun kv => kv.1 = name) (return_compute_fields cfg))
       = Some fn)
  ∧ Tests.run Tests.ACComputeConverter Tests.a
    = Ok {[ "attr1" := VInt 1; "attr2" := VInt 1; "attr3" := VInt 1 ]}.
Proof.
  intros Hinit Hlast.
  pose proof (__init___initialised _ _ Hinit) as Hwf.
  assert (OrderedDict.get (_compute_fields_mapping self) target_name
          = Some compute_fn) as Hget.
  { pose proof Hinit as Hself. apply __init___Ok in Hself as (-> & _). simpl.
    by rewrite OrderedDict_get_of_pairs. }
  split_and!; [exact Hget| | | | | | |reflexivity].
  - intros n Hn. rewrite _parse_need_compute_store_each in Hn.
    apply OrderedDictFacts.get_Some_elem_of in Hget.
    eapply (store_each_lookup fst (fun item => item.2 inst)
              _ _ _ (target_name, compute_fn)) in Hn as (v & Hv & Hlook);
      [by exists v|apply Hwf|exact Hget].
  - intros kwargs Hkw. by eapply computed_kwargs.
  - intros obj Hobj. apply convert_Ok in Hobj as (kwargs & Hkw & Hnew).
    destruct (computed_kwargs _ _ _ _ _ Hwf Hget Hkw) as (v & Hv & Hlook).
    exists kwargs, v. split_and!; [|done|done].
    apply __init___Ok in Hinit as (-> & _). exact Hnew.
  - intros e obj He Hobj. apply convert_Ok in Hobj as (kwargs & Hkw & _).
    destruct (computed_kwargs _ _ _ _ _ Hwf Hget Hkw) as (v & Hv & _).
    congruence.
  - intros v Hv Hsteps Hothers Hdisj. by eapply computed_kwargs_returns.
  - intros Hnd name fn Hin. rewrite <- OrderedDict_get_of_pairs.
    rewrite OrderedDictFacts.of_pairs_NoDup by done.
    by apply OrderedDictFacts.elem_of_get_Some.
Qed.

Lemma convert_computes_attribute_witness :
  snd <$> last (filter (fun kv => kv.1 = "attr3")
                  (return_compute_fields Tests.ACComputeConverter))
    = Some (fun x : instance => getattr x "attr1")
  ∧ OrderedDict.get (_compute_fields_mapping (built Tests.ACComputeConverter)) "attr3"
    = Some (fun x => getattr x "attr1")
  ∧ (∀ kwargs, convert_kwargs (built Tests.ACComputeConverter) Tests.a = Ok kwargs →
       ∃ v, getattr Tests.a "attr1" = Ok v ∧ kwargs !! "attr3" = Some v)
  ∧ convert_kwargs (built Tests.ACComputeConverter) Tests.a
    = Ok {[ "attr1" := VInt 1; "attr2" := VInt 1; "attr3" := VInt 1 ]}
  ∧ convert (built Tests.ACComputeConverter) Tests.a
    = Ok {[ "attr1" := VInt 1; "attr2" := VInt 1; "attr3" := VInt 1 ]}.
Proof.
  assert (__init__ Tests.ACComputeConverter = Ok (built Tests.ACComputeConverter))
    as Hinit by by_evaluation.
  assert (snd <$> last (filter (fun kv => kv.1 = "attr3")
                          (return_compute_fields Tests.ACComputeConverter))
          = Some (fun x : instance => getattr x "attr1")) as Hlast
    by reflexivity.
  destruct (convert_computes_attribute
              Tests.ACComputeConverter (built Tests.ACComputeConverter) Tests.a
              "attr3" (fun x => getattr x "attr1") Hinit Hlast)
    as (Hget & _ & Hkw & _).
  split_and!; [exact Hlast|exact Hget|exact Hkw|by_evaluation|by_evaluation].
Defined.

(** A computed value is stored as it is even when its type is not the
    declared one: [attr3: int] receives a [str]. *)
Example computed_value_is_not_checked :
  Tests.run
    {| origin_class := Tests.A; return_class := Tests.C;
       return_compute_fields := [("attr3", fun x => getattr x "attr2")];
       rename_pairs := []; return_type_hints := []; exclude_fields := [] |}
    Tests.a
  = Ok {[ "attr1" := VInt 1; "attr2" := VInt 1; "attr3" := VStr "1" ]}.
Proof. reflexivity. Qed.

(* ===================================================================== *)
(** ** Properties of [__init__] *)
(* ===================================================================== *)

Lemma return_attrs_resolved `{ConverterClass} (cfg : Config) :
  return_attrs (built cfg) = resolved_target_fields cfg.
Proof.
  unfold resolved_target_fields. simpl. f_equal.
  apply set_eq. intros k. rewrite !elem_of_list_to_set.
  apply OrderedDictFacts.elem_of_keys_of_pairs.
Qed.

(** C6 as stated fails: with every declared field excluded the resolved
    target field set is empty and [__init__] returns a converter. *)
Lemma empty_resolved_fields_accepted :
  resolved_target_fields EmptyResolved.AllExcluded = ∅
  ∧ __init__ EmptyResolved.AllExcluded = Ok (built EmptyResolved.AllExcluded).
Proof. split; by_evaluation. Qed.

(** C6, amended.  [__init__] raises [ConfigError] exactly when the type
    hints of the target with the extra annotations are empty — before
    excluded and computed fields are removed — or a rename target is
    repeated.  With a type hint and distinct rename targets it returns the
    converter; this is so whenever the resolved target field set is not
    empty and the rename targets are distinct. *)
Theorem init_checks_type_hints `{ConverterClass} (cfg : Config) :
  (target_hints cfg = ∅ → __init__ cfg = Raise (ConfigError NoTypeHints))
  ∧ (target_hints cfg ≠ ∅ → NoDup (rename_pairs cfg).*2 →
       __init__ cfg = Ok (built cfg))
  ∧ (resolved_target_fields cfg ≠ ∅ → NoDup (rename_pairs cfg).*2 →
       __init__ cfg = Ok (built cfg))
  ∧ (∀ why, __init__ cfg = Raise (ConfigError why) →
       target_hints cfg = ∅ ∨ ¬ NoDup (rename_pairs cfg).*2).
Proof.
  split_and!.
  - intros Hempty. rewrite __init___unfold. by rewrite decide_True.
  - apply __init___succeeds.
  - intros Hres. apply __init___succeeds.
    intros Hempty. apply Hres. unfold resolved_target_fields.
    rewrite Hempty, dom_empty_L. set_solver.
  - intros why. rewrite __init___unfold. repeat case_decide; naive_solver.
Qed.

Lemma init_checks_type_hints_witness :
  target_hints Tests.EmptyTypeHints = ∅
  ∧ __init__ Tests.EmptyTypeHints = Raise (ConfigError NoTypeHints)
  ∧ resolved_target_fields Tests.ABConverter ≠ ∅
  ∧ NoDup (rename_pairs Tests.ABConverter).*2
  ∧ __init__ Tests.ABConverter = Ok (built Tests.ABConverter).
Proof.
  split_and!; [by_evaluation| |by_evaluation|by_evaluation|].
  - apply (init_checks_type_hints Tests.EmptyTypeHints). by_evaluation.
  - apply (init_checks_type_hints Tests.ABConverter); by_evaluation.
Defined.

(** C7.  Two rename pairs with the same target name make [__init__] raise
    [ConfigError]: the one of the repeated targets when the target has type
    hints, the one of the missing type hints otherwise. *)
Theorem init_rejects_repeated_rename_target `{ConverterClass} (cfg : Config) :
  repeated_target (rename_pairs cfg) →
  (∃ why, __init__ cfg = Raise (ConfigError why))
  ∧ (target_hints cfg ≠ ∅ →
       __init__ cfg = Raise (ConfigError (DuplicateRename (rename_pairs cfg).*2))).
Proof.
  intros Hrep%repeated_target_not_NoDup. rewrite __init___unfold.
  split.
  - case_decide; [by eexists|]. rewrite decide_False by done. by eexists.
  - intros Hh. rewrite decide_False by done. by rewrite decide_False.
Qed.

Lemma init_rejects_repeated_rename_target_witness :
  repeated_target (rename_pairs Tests.DoubleRename)
  ∧ __init__ Tests.DoubleRename
    = Raise (ConfigError (DuplicateRename ["attr2"; "attr2"])).
Proof.
  assert (repeated_target (rename_pairs Tests.DoubleRename)) as Hrep.
  { exists 0%nat, 1%nat, "attr1", "attr1", "attr2". split_and!; [lia|done|done]. }
  split; [exact Hrep|].
  apply (init_rejects_repeated_rename_target Tests.DoubleRename Hrep).
  by_evaluation.
Defined.

(* ===================================================================== *)
(** ** Properties of [convert]: errors *)
(* ===================================================================== *)

Lemma parse_attr_rejected `{ConverterClass} (self : Converter) (inst : instance)
    (attr_from attr_to : string) (val : value) (return_type : pytype) (e : exn) :
  inst !! attr_from = Some val →
  return_hints self !! attr_to = Some return_type →
  needs_parser val return_type = true →
  rejected self val return_type e →
  parse_attr self inst attr_from attr_to = Raise (ParsingError attr_from attr_to e).
Proof.
  intros Hval Hhint Hneeds Hrej.
  rewrite (parse_attr_unfold _ _ _ _ _ _ Hval Hhint), Hneeds.
  destruct Hrej as [[-> ->]|(parser & -> & -> & ->)]; reflexivity.
Qed.

(** C3 as stated fails: the renamed attribute [attr2 -> y] holds a [str],
    [y] is declared [bytes] and no parser is registered for the pair, yet
    the [ParsingError] raised carries [attr1] and [x], the pair read
    before it. *)
Lemma parsing_error_names_first_failure :
  __init__ TwoFailures.Conv = Ok (built TwoFailures.Conv)
  ∧ routed (built TwoFailures.Conv) "attr2" "y"
  ∧ Tests.a !! "attr2" = Some (VStr "1")
  ∧ return_hints (built TwoFailures.Conv) !! "y" = Some bytes
  ∧ needs_parser (VStr "1") bytes = true
  ∧ _parsers_mapping (built TwoFailures.Conv) !! (str, bytes) = None
  ∧ convert (built TwoFailures.Conv) Tests.a
    = Raise (ParsingError "attr1" "x" (KeyError (KTypes int bytes)))
  ∧ ∀ cause, convert (built TwoFailures.Conv) Tests.a
             ≠ Raise (ParsingError "attr2" "y" cause).
Proof.
  split_and!; try by_evaluation.
  intros cause.
  assert (convert (built TwoFailures.Conv) Tests.a
          = Raise (ParsingError "attr1" "x" (KeyError (KTypes int bytes)))) as ->
    by reflexivity.
  discriminate.
Qed.

(** C3, amended.  A same-name or renamed attribute holds a value that is
    not [None], its observed type is neither the declared type of the
    target attribute nor such that the declared type is its [Optional]
    form, and no parser is registered for the pair of types or the
    registered parser raises [ValueError] or [KeyError]: the step of the
    loop raises [ParsingError] with exactly the two names, [convert] never
    returns an object, and [convert] raises that [ParsingError] when no
    attribute that may be read before this one raises. *)
Theorem convert_raises_ParsingError `{ConverterClass}
    (cfg : Config) (self : Converter) (inst : instance)
    (attr_from attr_to : string) (val : value) (return_type : pytype) (e : exn) :
  __init__ cfg = Ok self →
  routed self attr_from attr_to →
  inst !! attr_from = Some val →
  val ≠ VNone →
  return_hints self !! attr_to = Some return_type →
  _get_origin_value_type val ≠ return_type →
  Optional (_get_origin_value_type val) ≠ return_type →
  rejected self val return_type e →
  parse_attr self inst attr_from attr_to = Raise (ParsingError attr_from attr_to e)
  ∧ (∀ obj, convert self inst ≠ Ok obj)
  ∧ ((∀ p, may_precede self p (attr_from, attr_to) →
           returns (parse_attr self inst p.1 p.2)) →
     convert self inst = Raise (ParsingError attr_from attr_to e)).
Proof.
  intros Hinit Hroute Hval Hnone Hhint Hne Hopt Hrej.
  assert (needs_parser val return_type = true) as Hneeds.
  { unfold needs_parser. rewrite !bool_decide_eq_true_2 by done.
    by destruct val. }
  pose proof (parse_attr_rejected _ _ _ _ _ _ _ Hval Hhint Hneeds Hrej) as Hstep.
  pose proof (__init___initialised _ _ Hinit) as Hwf.
  split_and!.
  - exact Hstep.
  - intros obj. by eapply routed_Raise_convert_fails.
  - intros Hbefore. by eapply routed_Raise_convert.
Qed.

Lemma convert_raises_ParsingError_witness :
  routed (built Tests.ADConverter) "attr1" "attr1"
  ∧ Tests.a !! "attr1" = Some (VInt 1)
  ∧ return_hints (built Tests.ADConverter) !! "attr1" = Some bytes
  ∧ rejected (built Tests.ADConverter) (VInt 1) bytes (KeyError (KTypes int bytes))
  ∧ (∀ p, may_precede (built Tests.ADConverter) p ("attr1", "attr1") →
          returns (parse_attr (built Tests.ADConverter) Tests.a p.1 p.2))
  ∧ convert (built Tests.ADConverter) Tests.a
    = Raise (ParsingError "attr1" "attr1" (KeyError (KTypes int bytes))).
Proof.
  assert (rejected (built Tests.ADConverter) (VInt 1) bytes
            (KeyError (KTypes int bytes))) as Hrej by (by left).
  assert (∀ p, may_precede (built Tests.ADConverter) p ("attr1", "attr1") →
               returns (parse_attr (built Tests.ADConverter) Tests.a p.1 p.2))
    as Hbefore.
  { intros [a b] [(Heq & Hin & Hne)|(i & j & _ & _ & Hj)]; cbn [fst snd] in *.
    - subst b. exfalso. apply Hne.
      assert (origin_contains (built Tests.ADConverter) = {[ "attr1" ]}) as Hoc
        by reflexivity.
      rewrite Hoc in Hin. apply elem_of_singleton in Hin. by subst a.
    - change (renamed (built Tests.ADConverter)) with (@nil (string * string)) in Hj.
      by rewrite lookup_nil in Hj. }
  split_and!; [by_evaluation..|exact Hrej|exact Hbefore|].
  apply (convert_raises_ParsingError
           Tests.ADConverter (built Tests.ADConverter) Tests.a
           "attr1" "attr1" (VInt 1) bytes (KeyError (KTypes int bytes)));
    first [ exact Hrej | exact Hbefore | discriminate | by_evaluation ].
Defined.

(* ===================================================================== *)
(** ** The keyword arguments of the constructor *)
(* ===================================================================== *)

(** C8 as stated fails: [__init__] accepts a configuration that lists
    [attr3] as a rename target and as a computed attribute; the rename
    mapping and the compute mapping both hold [attr3], and the call of the
    constructor raises [TypeError]. *)
Lemma rename_and_compute_mappings_overlap :
  __init__ Overlap.RenameAndCompute = Ok (built Overlap.RenameAndCompute)
  ∧ convert_results (built Overlap.RenameAndCompute) Tests.a
    = Ok ({[ "attr1" := VInt 1; "attr2" := VInt 1 ]},
          {[ "attr3" := VInt 1 ]}, {[ "attr3" := VInt 1 ]})
  ∧ dom ({[ "attr3" := VInt 1 ]} : gmap string value)
      ∩ dom ({[ "attr3" := VInt 1 ]} : gmap string value) ≠ (∅ : gset string)
  ∧ convert (built Overlap.RenameAndCompute) Tests.a = Raise TypeError.
Proof. split_and!; by_evaluation. Qed.

(** C8, amended.  When the three pathways return their mappings, the
    same-name mapping shares no key with the rename mapping nor with the
    compute mapping.  The rename and compute mappings share no key exactly
    when no rename target is a computed attribute; then the constructor
    receives the union of the three mappings, each target name coming from
    one of them, and otherwise the call raises [TypeError] and the
    constructor receives nothing. *)
Theorem convert_mappings_disjoint `{ConverterClass}
    (cfg : Config) (self : Converter) (inst : instance)
    (c r n : gmap string value) :
  __init__ cfg = Ok self →
  convert_results self inst = Ok (c, r, n) →
  dom c ∩ dom r = ∅
  ∧ dom c ∩ dom n = ∅
  ∧ (dom r ∩ dom n = ∅ ↔
     ∀ t, t ∈ (rename_pairs cfg).*2 → t ∉ (return_compute_fields cfg).*1)
  ∧ (dom r ∩ dom n = ∅ →
     convert_kwargs self inst = Ok (c ∪ r ∪ n)
     ∧ dom (c ∪ r ∪ n) = dom c ∪ dom r ∪ dom n)
  ∧ (dom r ∩ dom n ≠ ∅ →
     convert_kwargs self inst = Raise TypeError
     ∧ convert self inst = Raise TypeError)
  ∧ (∀ kwargs, convert_kwargs self inst = Ok kwargs →
     dom r ∩ dom n = ∅ ∧ kwargs = c ∪ r ∪ n).
Proof.
  intros Hinit Hres.
  pose proof (__init___initialised _ _ Hinit) as Hwf.
  pose proof (convert_results_dom _ _ _ _ _ Hres) as (Hdc & Hdr & Hdn).
  assert (dom c ∩ dom r = ∅) as Hcr.
  { rewrite Hdc, Hdr. pose proof (init_contains_not_renamed _ Hwf). set_solver. }
  assert (dom c ∩ dom n = ∅) as Hcn.
  { rewrite Hdc, Hdn. pose proof (init_contains_not_computed _ Hwf). set_solver. }
  assert (convert_kwargs self inst =
          if decide (dom c ∩ dom r = ∅ ∧ dom c ∩ dom n = ∅ ∧ dom r ∩ dom n = ∅)
          then Ok (c ∪ r ∪ n) else Raise TypeError) as Hkw.
  { unfold convert_kwargs, mbind, outcome_bind. rewrite Hres.
    apply unpack_kwargs_three. }
  split_and!; [done|done| | | |].
  - rewrite Hdr, Hdn. apply __init___Ok in Hinit as (-> & _).
    rewrite renamed_built. simpl. split.
    + intros Hrn t Ht Hc.
      rewrite <- OrderedDictFacts.elem_of_keys_of_pairs in Hc. set_solver.
    + intros Hno. apply set_eq. intros t. split; [|set_solver].
      rewrite elem_of_intersection, !elem_of_list_to_set.
      intros [Ht Hc]. rewrite OrderedDictFacts.elem_of_keys_of_pairs in Hc.
      exfalso. by apply (Hno t Ht).
  - intros Hrn. split; [|by rewrite !dom_union_L].
    rewrite Hkw. by rewrite decide_True.
  - intros Hrn.
    assert (convert_kwargs self inst = Raise TypeError) as Hraise.
    { rewrite Hkw. rewrite decide_False; [done|]. by intros (_ & _ & ?). }
    split; [done|]. unfold convert. by rewrite Hraise.
  - intros kwargs. rewrite Hkw. case_decide; [|done].
    intros [= <-]. naive_solver.
Qed.

Lemma convert_mappings_disjoint_witness :
  convert_results (built Tests.ACRenameConverter) Tests.a
    = Ok ({[ "attr1" := VInt 1; "attr2" := VInt 1 ]},
          {[ "attr3" := VInt 1 ]}, (∅ : gmap string value))
  ∧ dom ({[ "attr1" := VInt 1; "attr2" := VInt 1 ]} : gmap string value)
      ∩ dom ({[ "attr3" := VInt 1 ]} : gmap string value) = (∅ : gset string)
  ∧ convert_kwargs (built Tests.ACRenameConverter) Tests.a
    = Ok ({[ "attr1" := VInt 1; "attr2" := VInt 1 ]} ∪ {[ "attr3" := VInt 1 ]}
          ∪ (∅ : gmap string value)).
Proof.
  assert (__init__ Tests.ACRenameConverter = Ok (built Tests.ACRenameConverter))
    as Hinit by by_evaluation.
  assert (convert_results (built Tests.ACRenameConverter) Tests.a
          = Ok ({[ "attr1" := VInt 1; "attr2" := VInt 1 ]},
                {[ "attr3" := VInt 1 ]}, (∅ : gmap string value))) as Hres
    by by_evaluation.
  destruct (convert_mappings_disjoint _ _ _ _ _ _ Hinit Hres)
    as (Hcr & _ & _ & Hkw & _).
  split_and!; [exact Hres|exact Hcr|].
  apply Hkw. by_evaluation.
Defined.

(** An excluded field that is neither a rename target nor a computed
    attribute is not among the keyword arguments. *)
Lemma excluded_field_not_supplied `{ConverterClass}
    (cfg : Config) (self : Converter) (inst : instance)
    (field : string) (kwargs : gmap string value) :
  __init__ cfg = Ok self →
  field ∈ exclude_fields cfg →
  field ∉ (rename_pairs cfg).*2 →
  field ∉ (return_compute_fields cfg).*1 →
  convert_kwargs self inst = Ok kwargs →
  kwargs !! field = None.
Proof.
  intros Hinit Hex Hren Hcomp Hkw.
  apply convert_kwargs_Ok in Hkw as (c & r & n & Hres & _ & ->).
  apply convert_results_dom in Hres as (Hdc & Hdr & Hdn).
  apply __init___Ok in Hinit as (-> & _).
  rewrite renamed_built in Hdr. simpl in Hdc, Hdn.
  apply not_elem_of_dom. rewrite !dom_union_L, Hdc, Hdr, Hdn.
  rewrite <- OrderedDictFacts.elem_of_keys_of_pairs in Hcomp.
  set_solver.
Qed.

(** C9 fails on the code: the docstring of [exclude_fields] says that no
    value is passed to the constructor for an excluded attribute, but an
    excluded attribute that is a rename target, or a computed attribute, is
    passed all the same. *)
Lemma excluded_field_receives_value :
  "attr3" ∈ exclude_fields Overlap.ExcludedRename
  ∧ __init__ Overlap.ExcludedRename = Ok (built Overlap.ExcludedRename)
  ∧ convert_kwargs (built Overlap.ExcludedRename) Tests.a
    = Ok {[ "attr1" := VInt 1; "attr2" := VInt 1; "attr3" := VInt 1 ]}
  ∧ "attr3" ∈ exclude_fields Overlap.ExcludedCompute
  ∧ __init__ Overlap.ExcludedCompute = Ok (built Overlap.ExcludedCompute)
  ∧ convert_kwargs (built Overlap.ExcludedCompute) Tests.a
    = Ok {[ "attr1" := VInt 1; "attr2" := VInt 1; "attr3" := VInt 1 ]}.
Proof. split_and!; by_evaluation. Qed.

(* ===================================================================== *)
(** ** A rename target without a type hint *)
(* ===================================================================== *)

(** C10 as stated fails.  A rename pair whose target has no type hint does
    not make [__init__] succeed: without any type hint it raises
    [ConfigError].  And [convert] does not raise [KeyError] on every
    instance: a same-name attribute read before the pair raises
    [ParsingError]. *)
Lemma unhinted_rename_target_other_errors :
  ("attr1", "x") ∈ rename_pairs Unhinted.NoHints
  ∧ target_hints Unhinted.NoHints !! "x" = None
  ∧ __init__ Unhinted.NoHints = Raise (ConfigError NoTypeHints)
  ∧ ("attr2", "zzz") ∈ rename_pairs Unhinted.AfterFailure
  ∧ target_hints Unhinted.AfterFailure !! "zzz" = None
  ∧ __init__ Unhinted.AfterFailure = Ok (built Unhinted.AfterFailure)
  ∧ convert (built Unhinted.AfterFailure) Tests.a
    = Raise (ParsingError "attr1" "attr1" (KeyError (KTypes int bytes))).
Proof. split_and!; by_evaluation. Qed.

(** C10, amended.  A rename pair whose target has no type hint is not
    looked at by [__init__], which returns the converter whenever the
    target has some type hint and the rename targets are distinct.  On
    every instance [convert] then returns no object; the step of the pair
    raises [KeyError] with the target name once the origin attribute is
    read, and [convert] raises that [KeyError] — not a [ParsingError] —
    when the instance has the origin attribute and no attribute that may be
    read before the pair raises. *)
Theorem convert_raises_KeyError_without_hint `{ConverterClass}
    (cfg : Config) (origin_name target_name : string) :
  (origin_name, target_name) ∈ rename_pairs cfg →
  target_hints cfg !! target_name = None →
  (target_hints cfg ≠ ∅ → NoDup (rename_pairs cfg).*2 →
     __init__ cfg = Ok (built cfg))
  ∧ ∀ (self : Converter) (inst : instance),
      __init__ cfg = Ok self →
      (∀ obj, convert self inst ≠ Ok obj)
      ∧ (is_Some (inst !! origin_name) →
         parse_attr self inst origin_name target_name
           = Raise (KeyError (KName target_name))
         ∧ ((∀ p, may_precede self p (origin_name, target_name) →
                  returns (parse_attr self inst p.1 p.2)) →
            convert self inst = Raise (KeyError (KName target_name)))).
Proof.
  intros Hpair Hhint. split; [apply __init___succeeds|].
  intros self inst Hinit.
  pose proof (__init___initialised _ _ Hinit) as Hwf.
  assert (routed self origin_name target_name) as Hroute.
  { right. apply __init___Ok in Hinit as (-> & _). by rewrite renamed_built. }
  assert (return_hints self !! target_name = None) as Hnone.
  { apply __init___Ok in Hinit as (-> & _). exact Hhint. }
  split.
  - intros obj. destruct (inst !! origin_name) as [val|] eqn:Hval.
    + eapply routed_Raise_convert_fails; [exact Hroute|].
      by apply (parse_attr_no_hint _ _ _ _ val).
    + eapply routed_Raise_convert_fails; [exact Hroute|].
      by apply parse_attr_no_attr.
  - intros [val Hval].
    pose proof (parse_attr_no_hint _ _ _ _ _ Hval Hnone) as Hstep.
    split; [exact Hstep|].
    intros Hbefore. by eapply routed_Raise_convert.
Qed.

Lemma convert_raises_KeyError_without_hint_witness :
  ("attr2", "zzz") ∈ rename_pairs Unhinted.Reached
  ∧ target_hints Unhinted.Reached !! "zzz" = None
  ∧ __init__ Unhinted.Reached = Ok (built Unhinted.Reached)
  ∧ parse_attr (built Unhinted.Reached) Tests.a "attr2" "zzz"
    = Raise (KeyError (KName "zzz"))
  ∧ convert (built Unhinted.Reached) Tests.a = Raise (KeyError (KName "zzz")).
Proof.
  assert (("attr2", "zzz") ∈ rename_pairs Unhinted.Reached) as Hpair
    by by_evaluation.
  assert (target_hints Unhinted.Reached !! "zzz" = None) as Hhint
    by by_evaluation.
  assert (__init__ Unhinted.Reached = Ok (built Unhinted.Reached)) as Hinit
    by by_evaluation.
  destruct (convert_raises_KeyError_without_hint
              Unhinted.Reached "attr2" "zzz" Hpair Hhint) as [_ Hconv].
  destruct (Hconv (built Unhinted.Reached) Tests.a Hinit) as [_ Hkey].
  destruct Hkey as [Hstep Hraise]; [by eexists|].
  split_and!; [done..|].
  reflexivity.
Defined.

(* ===================================================================== *)
(** ** Further properties: dictionaries built from lists of pairs *)
(* ===================================================================== *)

Section dict_last.

Context `{Countable K} {V : Type}.

Lemma dict_snoc (pairs : list (K * V)) (k : K) (v : V) :
  dict (pairs ++ [(k, v)]) = <[k := v]> (dict pairs).
Proof. unfold dict. by rewrite fold_left_app. Qed.

(** [dict(pairs)[k]] is the value of the last pair with key [k]. *)
Lemma dict_lookup_last (pairs : list (K * V)) (k : K) :
  dict pairs !! k = snd <$> last (filter (fun kv => kv.1 = k) pairs).
Proof.
  induction pairs as [|[k' v'] pairs IH] using rev_ind; [done|].
  rewrite dict_snoc, filter_app.
  destruct (decide (k' = k)) as [->|Hne].
  - rewrite filter_cons_True by done. rewrite filter_nil, last_snoc.
    apply lookup_insert_eq.
  - rewrite filter_cons_False by done. rewrite filter_nil, app_nil_r.
    by rewrite lookup_insert_ne.
Qed.

Lemma dict_lookup_constant (keys : list K) (v : V) (k : K) :
  dict ((fun key => (key, v)) <$> keys) !! k
  = if decide (k ∈ keys) then Some v else None.
Proof.
  destruct (decide (k ∈ keys)) as [Hin|Hnin].
  - rewrite dict_lookup_last.
    destruct (last _) as [[k' v']|] eqn:Hlast; simpl.
    + apply last_Some_elem_of, list_elem_of_filter in Hlast as [_ Hmem].
      apply list_elem_of_fmap in Hmem as (key & [= _ ->] & _). done.
    + apply last_None in Hlast. exfalso.
      eapply (filter_nil_not_elem_of _ _ (k, v)); [exact Hlast|done|].
      apply list_elem_of_fmap. by exists k.
  - apply not_elem_of_dom. rewrite dom_dict, <- list_fmap_compose.
    rewrite elem_of_list_to_set, list_elem_of_fmap. by intros (key & -> & ?).
Qed.

End dict_last.

(* ===================================================================== *)
(** ** Further properties: the registry of parsers *)
(* ===================================================================== *)

Lemma _setup_parsers_lookup `{ConverterClass} (key : pytype * pytype) :
  _setup_parsers !! key
  = last (filter (fun parser => key ∈ get_parse_types parser) _get_parsers).
Proof.
  unfold _setup_parsers. generalize _get_parsers. intros parsers.
  induction parsers as [|parser parsers IH] using rev_ind; [done|].
  rewrite fold_left_app, filter_app. cbn [fold_left].
  rewrite lookup_union, dict_lookup_constant, IH.
  destruct (decide (key ∈ get_parse_types parser)) as [Hin|Hnin].
  - rewrite filter_cons_True by done. rewrite filter_nil, last_snoc.
    by destruct (last _).
  - rewrite filter_cons_False by done. rewrite filter_nil, app_nil_r.
    by destruct (last _).
Qed.

Lemma _setup_parsers_sound `{ConverterClass}
    (key : pytype * pytype) (parser : BaseParser) :
  _setup_parsers !! key = Some parser →
  parser ∈ _get_parsers ∧ key ∈ get_parse_types parser.
Proof.
  rewrite _setup_parsers_lookup.
  intros Hlast%last_Some_elem_of. by apply list_elem_of_filter in Hlast as [? ?].
Qed.

(** X1.  The registry maps a pair of types to the last parser of
    [_get_parsers] that lists the pair among its [get_parse_types]: a later
    parser replaces an earlier one for the pairs they share, and a pair no
    parser lists has no entry. *)
Theorem _setup_parsers_last_registered `{ConverterClass} (key : pytype * pytype) :
  _setup_parsers !! key
  = last (filter (fun parser => key ∈ get_parse_types parser) _get_parsers).
Proof. apply _setup_parsers_lookup. Qed.

(** X2.  A pair of types has an entry in the registry exactly when some
    parser of [_get_parsers] lists it, and the parser found under a pair
    is one of [_get_parsers] that lists the pair; so for every parser the
    pairs (T1, T2), (T1, Optional[T2]) and (Optional[T1], Optional[T2]) all
    have an entry. *)
Theorem _setup_parsers_entries `{ConverterClass} (key : pytype * pytype) :
  (is_Some (_setup_parsers !! key)
   ↔ ∃ parser, parser ∈ _get_parsers ∧ key ∈ get_parse_types parser)
  ∧ (∀ parser, _setup_parsers !! key = Some parser →
       parser ∈ _get_parsers ∧ key ∈ get_parse_types parser)
  ∧ (∀ parser, parser ∈ _get_parsers →
       is_Some (_setup_parsers !! (origin_type parser, return_type parser))
       ∧ is_Some (_setup_parsers !! (origin_type parser, Optional (return_type parser)))
       ∧ is_Some (_setup_parsers
                    !! (Optional (origin_type parser), Optional (return_type parser)))).
Proof.
  assert (∀ k parser, _setup_parsers !! k = Some parser →
            parser ∈ _get_parsers ∧ k ∈ get_parse_types parser) as Hsound.
  { intros k parser. apply _setup_parsers_sound. }
  assert (∀ k parser, parser ∈ _get_parsers → k ∈ get_parse_types parser →
            is_Some (_setup_parsers !! k)) as Hcomplete.
  { intros k parser Hp Hk. rewrite _setup_parsers_lookup.
    apply last_is_Some. intros Hnil.
    by apply (filter_nil_not_elem_of _ _ parser Hnil Hk). }
  split_and!.
  - split; [intros [parser Hp]; exists parser; by apply Hsound|].
    intros (parser & Hp & Hk). by eapply Hcomplete.
  - apply Hsound.
  - intros parser Hp.
    split_and!; (eapply Hcomplete; [exact Hp|]); unfold get_parse_types; set_solver.
Qed.

Lemma _setup_parsers_entries_witness :
  StrIntParser ∈ @_get_parsers BaseConverter
  ∧ is_Some (@_setup_parsers BaseConverter !! (str, Optional int))
  ∧ (∃ parser, parser ∈ @_get_parsers BaseConverter
               ∧ (int, str) ∈ get_parse_types parser).
Proof.
  assert (StrIntParser ∈ @_get_parsers BaseConverter) as Hp by (simpl; set_solver).
  destruct (_setup_parsers_entries (H:=BaseConverter) (int, str))
    as (Hiff & _ & Hall).
  destruct (Hall StrIntParser Hp) as (_ & Hopt & _).
  split_and!; [exact Hp|exact Hopt|].
  apply Hiff. by eexists.
Defined.

(* ===================================================================== *)
(** ** Further properties: what [convert] passes and when it returns *)
(* ===================================================================== *)

(** X4.  [_parse_rename_mapping] splits the rename pairs into the list of
    origin names and the list of target names, in order and of the length
    of the input; zipping the two lists gives the pairs back. *)
Theorem _parse_rename_mapping_zip (doublet : list (string * string)) :
  _parse_rename_mapping doublet = (doublet.*1, doublet.*2)
  ∧ length (_parse_rename_mapping doublet).1 = length doublet
  ∧ length (_parse_rename_mapping doublet).2 = length doublet
  ∧ zip (_parse_rename_mapping doublet).1 (_parse_rename_mapping doublet).2
    = doublet.
Proof.
  rewrite _parse_rename_mapping_unzip. simpl.
  rewrite !length_fmap, zip_fst_snd. done.
Qed.

Lemma store_each_Raise {A} (key : A → string) (step : A → outcome value)
    (xs : list A) (acc : gmap string value) (e : exn) :
  store_each key step xs acc = Raise e → ∃ x, x ∈ xs ∧ step x = Raise e.
Proof.
  revert acc. induction xs as [|x xs IH]; intros acc; simpl; [done|].
  destruct (step x) as [v|e'] eqn:Hx.
  - intros (y & Hy & He)%IH. exists y. split; [by right|done].
  - intros [= ->]. exists x. split; [left|done].
Qed.

Lemma convert_kwargs_Ok_steps `{ConverterClass}
    (self : Converter) (inst : instance) (kwargs : gmap string value)
    (attr_from attr_to : string) :
  convert_kwargs self inst = Ok kwargs →
  routed self attr_from attr_to →
  returns (parse_attr self inst attr_from attr_to).
Proof.
  intros Hkw Hroute.
  apply convert_kwargs_Ok in Hkw as (c & r & n & Hres & _).
  apply convert_results_Ok in Hres as (Hc & Hr & _).
  rewrite _parse_samename_store_each in Hc.
  rewrite _parse_rename_store_each in Hr.
  apply store_each_Ok_Forall in Hc, Hr.
  rewrite Forall_forall in Hc. rewrite Forall_forall in Hr.
  destruct Hroute as [[-> Hin]|Hin].
  - apply Hc. by apply elem_of_elements.
  - apply (Hr (attr_from, attr_to) Hin).
Qed.

(** X5.  After a successful [__init__], [convert] reaches the call of the
    constructor exactly when every same-name and renamed attribute is read
    and converted without an exception, every computed attribute's function
    returns, and no rename target is also a computed attribute. *)
Theorem convert_kwargs_returns_iff `{ConverterClass}
    (cfg : Config) (self : Converter) (inst : instance) :
  __init__ cfg = Ok self →
  returns (convert_kwargs self inst) ↔
    (∀ attr_from attr_to, routed self attr_from attr_to →
                          returns (parse_attr self inst attr_from attr_to))
    ∧ (∀ attr func,
         (attr, func) ∈ OrderedDict.items (_compute_fields_mapping self) →
         returns (func inst))
    ∧ (∀ t, t ∈ (rename_pairs cfg).*2 → t ∉ (return_compute_fields cfg).*1).
Proof.
  intros Hinit. pose proof (__init___initialised _ _ Hinit) as Hwf.
  assert (renamed self = rename_pairs cfg
          ∧ ∀ t, t ∈ OrderedDict.keys (_compute_fields_mapping self)
                 ↔ t ∈ (return_compute_fields cfg).*1) as [Hren Hkeys].
  { apply __init___Ok in Hinit as (-> & _). split; [apply renamed_built|].
    intros t. apply OrderedDictFacts.elem_of_keys_of_pairs. }
  split.
  - intros [kwargs Hkw].
    apply convert_kwargs_Ok in Hkw as (c & r & n & Hres & (_ & _ & Hrn) & _).
    pose proof (convert_results_dom _ _ _ _ _ Hres) as (_ & Hdr & Hdn).
    apply convert_results_Ok in Hres as (Hc & Hr & Hn).
    rewrite _parse_samename_store_each in Hc.
    rewrite _parse_rename_store_each in Hr.
    rewrite _parse_need_compute_store_each in Hn.
    apply store_each_Ok_Forall in Hc, Hr, Hn.
    rewrite Forall_forall in Hc. rewrite Forall_forall in Hr.
    rewrite Forall_forall in Hn.
    split_and!.
    + intros attr_from attr_to [[-> Hin]|Hin].
      * apply Hc. by apply elem_of_elements.
      * apply (Hr (attr_from, attr_to) Hin).
    + intros attr func Hin. apply (Hn (attr, func) Hin).
    + intros t Ht Hcomp. rewrite <- Hkeys in Hcomp. rewrite <- Hren in Ht.
      rewrite Hdr, Hdn in Hrn. set_solver.
  - intros (Hsteps & Hfuncs & Hdisj).
    apply convert_kwargs_returns; [done..|].
    intros t Ht Hcomp. rewrite Hren in Ht. rewrite Hkeys in Hcomp.
    by apply (Hdisj t).
Qed.

Lemma convert_kwargs_returns_iff_witness :
  __init__ Tests.ACRenameConverter = Ok (built Tests.ACRenameConverter)
  ∧ returns (convert_kwargs (built Tests.ACRenameConverter) Tests.a)
  ∧ ∀ attr_from attr_to,
      routed (built Tests.ACRenameConverter) attr_from attr_to →
      returns (parse_attr (built Tests.ACRenameConverter) Tests.a attr_from attr_to).
Proof.
  assert (__init__ Tests.ACRenameConverter = Ok (built Tests.ACRenameConverter))
    as Hinit by by_evaluation.
  assert (returns (convert_kwargs (built Tests.ACRenameConverter) Tests.a))
    as Hret by (eexists; by_evaluation).
  split_and!; [exact Hinit|exact Hret|].
  apply (convert_kwargs_returns_iff _ _ Tests.a Hinit). exact Hret.
Defined.

(** X6.  The keyword arguments [convert] passes are exactly: the target
    type hints that are not excluded, not computed, not rename targets and
    that are attributes of the origin; the rename targets; the computed
    attributes.  A hinted target attribute the origin does not have, and
    that is neither renamed nor computed, is left out. *)
Theorem convert_kwargs_dom `{ConverterClass}
    (cfg : Config) (self : Converter) (inst : instance)
    (kwargs : gmap string value) :
  __init__ cfg = Ok self →
  convert_kwargs self inst = Ok kwargs →
  dom kwargs
  = ((dom (target_hints cfg)
        ∖ list_to_set (exclude_fields cfg)
        ∖ list_to_set (return_compute_fields cfg).*1
        ∖ list_to_set (rename_pairs cfg).*2)
       ∩ list_to_set (_get_origin_attrs (origin_class cfg)))
    ∪ list_to_set (rename_pairs cfg).*2
    ∪ list_to_set (return_compute_fields cfg).*1.
Proof.
  intros Hinit Hkw.
  apply convert_kwargs_Ok in Hkw as (c & r & n & Hres & _ & ->).
  apply convert_results_dom in Hres as (Hdc & Hdr & Hdn).
  apply __init___Ok in Hinit as (-> & _).
  rewrite renamed_built in Hdr. simpl in Hdc, Hdn.
  rewrite !dom_union_L, Hdc, Hdr, Hdn.
  assert ((list_to_set (OrderedDict.keys
             (OrderedDict.of_pairs (return_compute_fields cfg))) : gset string)
          = list_to_set (return_compute_fields cfg).*1) as ->.
  { apply set_eq. intros t. rewrite !elem_of_list_to_set.
    apply OrderedDictFacts.elem_of_keys_of_pairs. }
  done.
Qed.

Lemma convert_kwargs_dom_witness :
  __init__ Tests.ACRenameConverter = Ok (built Tests.ACRenameConverter)
  ∧ convert_kwargs (built Tests.ACRenameConverter) Tests.a
    = Ok {[ "attr1" := VInt 1; "attr2" := VInt 1; "attr3" := VInt 1 ]}
  ∧ dom ({[ "attr1" := VInt 1; "attr2" := VInt 1; "attr3" := VInt 1 ]}
           : gmap string value)
    = ((dom (target_hints Tests.ACRenameConverter)
          ∖ list_to_set (exclude_fields Tests.ACRenameConverter)
          ∖ list_to_set (return_compute_fields Tests.ACRenameConverter).*1
          ∖ list_to_set (rename_pairs Tests.ACRenameConverter).*2)
         ∩ list_to_set (_get_origin_attrs (origin_class Tests.ACRenameConverter)))
      ∪ list_to_set (rename_pairs Tests.ACRenameConverter).*2
      ∪ list_to_set (return_compute_fields Tests.ACRenameConverter).*1.
Proof.
  assert (__init__ Tests.ACRenameConverter = Ok (built Tests.ACRenameConverter))
    as Hinit by by_evaluation.
  assert (convert_kwargs (built Tests.ACRenameConverter) Tests.a
          = Ok {[ "attr1" := VInt 1; "attr2" := VInt 1; "attr3" := VInt 1 ]})
    as Hkw by by_evaluation.
  split_and!; [exact Hinit|exact Hkw|].
  exact (convert_kwargs_dom _ _ _ _ Hinit Hkw).
Defined.

(* ===================================================================== *)
(** ** Further properties: the exceptions of [convert] *)
(* ===================================================================== *)

(** X7.  Reading and converting one attribute whose target has a declared
    type never raises a bare [KeyError] or [ValueError]: either the origin
    attribute is missing ([AttributeError]), or the missing parser or the
    [KeyError]/[ValueError] of the parser is wrapped in a [ParsingError]
    with the two names, or the parser raised another exception, which
    passes unchanged. *)
Theorem parse_attr_wraps_parser_errors `{ConverterClass}
    (self : Converter) (inst : instance) (attr_from attr_to : string)
    (return_type : pytype) (e : exn) :
  return_hints self !! attr_to = Some return_type →
  parse_attr self inst attr_from attr_to = Raise e →
  is_KeyError_or_ValueError e = false
  ∧ ((inst !! attr_from = None ∧ e = AttributeError attr_from)
     ∨ (∃ val cause, inst !! attr_from = Some val
                     ∧ e = ParsingError attr_from attr_to cause
                     ∧ rejected self val return_type cause)
     ∨ (∃ val parser,
          inst !! attr_from = Some val
          ∧ _parsers_mapping self !! (_get_origin_value_type val, return_type)
            = Some parser
          ∧ __call__ parser val = Raise e)).
Proof.
  intros Hhint. destruct (inst !! attr_from) as [val|] eqn:Hval.
  - rewrite (parse_attr_unfold _ _ _ _ _ _ Hval Hhint).
    destruct (needs_parser val return_type); [|done].
    destruct (_parsers_mapping self !! _) as [parser|] eqn:Hreg.
    + destruct (__call__ parser val) as [out|e0] eqn:Hcall; [done|].
      destruct (is_KeyError_or_ValueError e0) eqn:Hkind; intros [= <-].
      * split; [done|]. right. left. exists val, e0.
        split_and!; [done..|]. right. by exists parser.
      * split; [done|]. right. right. by exists val, parser.
    + simpl. intros [= <-]. split; [done|]. right. left.
      eexists val, _. split_and!; [done..|]. by left.
  - rewrite parse_attr_no_attr by done. intros [= <-]. split; [done|]. by left.
Qed.

Lemma parse_attr_wraps_parser_errors_witness :
  return_hints (built Tests.ADConverter) !! "attr1" = Some bytes
  ∧ parse_attr (built Tests.ADConverter) Tests.a "attr1" "attr1"
    = Raise (ParsingError "attr1" "attr1" (KeyError (KTypes int bytes)))
  ∧ is_KeyError_or_ValueError
      (ParsingError "attr1" "attr1" (KeyError (KTypes int bytes))) = false.
Proof.
  assert (return_hints (built Tests.ADConverter) !! "attr1" = Some bytes)
    as Hhint by by_evaluation.
  assert (parse_attr (built Tests.ADConverter) Tests.a "attr1" "attr1"
          = Raise (ParsingError "attr1" "attr1" (KeyError (KTypes int bytes))))
    as Hstep by by_evaluation.
  split_and!; [exact Hhint|exact Hstep|].
  exact (proj1 (parse_attr_wraps_parser_errors _ _ _ _ _ _ Hhint Hstep)).
Defined.

(** X8.  When a same-name or renamed attribute cannot be read or
    converted, the exception [convert] raises is the exception of a
    same-name or renamed attribute: the computed attributes' functions and
    the constructor are not reached. *)
Theorem convert_raises_copy_error_first `{ConverterClass}
    (self : Converter) (inst : instance) (attr_from attr_to : string) (e : exn) :
  routed self attr_from attr_to →
  parse_attr self inst attr_from attr_to = Raise e →
  ∃ attr_from' attr_to' e',
    routed self attr_from' attr_to'
    ∧ parse_attr self inst attr_from' attr_to' = Raise e'
    ∧ convert self inst = Raise e'.
Proof.
  intros Hroute He.
  destruct (_parse_samename self (elements (origin_contains self)) inst)
    as [c|e1] eqn:Hc.
  - destruct (_parse_rename self (origin_rename self) (return_rename self) inst)
      as [r|e2] eqn:Hr.
    + exfalso. destruct Hroute as [[-> Hin]|Hin].
      * rewrite _parse_samename_store_each in Hc.
        eapply (store_each_never_returns id (fun a => parse_attr self inst a a)
                  _ _ attr_to e c); [|exact He|exact Hc].
        by apply elem_of_elements.
      * rewrite _parse_rename_store_each in Hr.
        eapply (store_each_never_returns snd
                  (fun p => parse_attr self inst p.1 p.2)
                  _ _ (attr_from, attr_to) e r); [exact Hin|exact He|exact Hr].
    + pose proof Hr as Hr'. rewrite _parse_rename_store_each in Hr'.
      apply store_each_Raise in Hr' as ([a b] & Hin & Hstep).
      exists a, b, e2. split_and!; [by right|exact Hstep|].
      apply convert_Raise. by apply (convert_results_Raise_rename _ _ c).
  - pose proof Hc as Hc'. rewrite _parse_samename_store_each in Hc'.
    apply store_each_Raise in Hc' as (a & Hin%elem_of_elements & Hstep).
    exists a, a, e1. split_and!; [by left|exact Hstep|].
    apply convert_Raise. by apply convert_results_Raise_samename.
Qed.

Lemma convert_raises_copy_error_first_witness :
  routed (built TwoFailures.Conv) "attr2" "y"
  ∧ parse_attr (built TwoFailures.Conv) Tests.a "attr2" "y"
    = Raise (ParsingError "attr2" "y" (KeyError (KTypes str bytes)))
  ∧ ∃ attr_from' attr_to' e',
      routed (built TwoFailures.Conv) attr_from' attr_to'
      ∧ parse_attr (built TwoFailures.Conv) Tests.a attr_from' attr_to' = Raise e'
      ∧ convert (built TwoFailures.Conv) Tests.a = Raise e'.
Proof.
  assert (routed (built TwoFailures.Conv) "attr2" "y") as Hroute by by_evaluation.
  assert (parse_attr (built TwoFailures.Conv) Tests.a "attr2" "y"
          = Raise (ParsingError "attr2" "y" (KeyError (KTypes str bytes))))
    as Hstep by by_evaluation.
  split_and!; [exact Hroute|exact Hstep|].
  exact (convert_raises_copy_error_first _ _ _ _ _ Hroute Hstep).
Defined.

(** X9.  When every same-name and renamed attribute is read and converted,
    the exception of the first computed attribute's function that raises,
    in the order of [_compute_fields_mapping], reaches the caller of
    [convert] as it is. *)
Theorem convert_raises_compute_error `{ConverterClass}
    (self : Converter) (inst : instance)
    (pre post : list (string * (instance → outcome value)))
    (attr : string) (func : instance → outcome value) (e : exn) :
  (∀ attr_from attr_to, routed self attr_from attr_to →
                        returns (parse_attr self inst attr_from attr_to)) →
  OrderedDict.items (_compute_fields_mapping self) = pre ++ (attr, func) :: post →
  (∀ a f, (a, f) ∈ pre → returns (f inst)) →
  func inst = Raise e →
  convert self inst = Raise e.
Proof.
  intros Hsteps Hitems Hpre He.
  assert (returns (_parse_samename self (elements (origin_contains self)) inst))
    as [c Hc].
  { rewrite _parse_samename_store_each. apply store_each_returns.
    apply Forall_forall. intros a Ha%elem_of_elements. apply Hsteps. by left. }
  assert (returns (_parse_rename self (origin_rename self) (return_rename self) inst))
    as [r Hr].
  { rewrite _parse_rename_store_each. apply store_each_returns.
    apply Forall_forall. intros [a b] Hp. apply Hsteps. by right. }
  assert (_parse_need_compute self inst = Raise e) as Hn.
  { rewrite _parse_need_compute_store_each.
    unfold OrderedDict.items in Hitems. rewrite Hitems.
    apply (store_each_raises fst (fun item => item.2 inst)); [|exact He].
    apply Forall_forall. intros [a f] Hin. by apply (Hpre a f). }
  apply convert_Raise. unfold convert_results. by rewrite Hc, Hr, Hn.
Qed.

Lemma convert_raises_compute_error_witness :
  OrderedDict.items (_compute_fields_mapping (built MoreTests.ComputeFails))
    = [] ++ ("attr3", fun _ => Raise (UserError "boom")) :: []
  ∧ convert (built MoreTests.ComputeFails) Tests.a = Raise (UserError "boom").
Proof.
  assert (OrderedDict.items (_compute_fields_mapping (built MoreTests.ComputeFails))
          = [] ++ ("attr3", fun _ => Raise (UserError "boom")) :: []) as Hitems
    by reflexivity.
  assert (∀ attr_from attr_to,
            routed (built MoreTests.ComputeFails) attr_from attr_to →
            returns (parse_attr (built MoreTests.ComputeFails) Tests.a
                       attr_from attr_to)) as Hsteps.
  { intros attr_from attr_to [[-> Hin]|Hin].
    - assert (origin_contains (built MoreTests.ComputeFails)
              = {[ "attr1"; "attr2" ]}) as Hoc by reflexivity.
      rewrite Hoc in Hin.
      apply elem_of_union in Hin as [->%elem_of_singleton| ->%elem_of_singleton];
        eexists; reflexivity.
    - change (renamed (built MoreTests.ComputeFails))
        with (@nil (string * string)) in Hin.
      by apply elem_of_nil in Hin. }
  split; [exact Hitems|].
  apply (convert_raises_compute_error _ Tests.a _ _ _ _ _ Hsteps Hitems).
  - intros a f Hin. by apply elem_of_nil in Hin.
  - reflexivity.
Defined.

(* ===================================================================== *)
(** ** Further properties: configuration lists read as dicts *)
(* ===================================================================== *)

(** X10.  A computed attribute configured more than once is computed once,
    by the function of its last pair: [_compute_fields_mapping] holds each
    configured name once and maps it to the function of the last pair with
    that name. *)
Theorem compute_fields_last_wins `{ConverterClass}
    (cfg : Config) (self : Converter) (name : string) :
  __init__ cfg = Ok self →
  OrderedDict.get (_compute_fields_mapping self) name
    = snd <$> last (filter (fun kv => kv.1 = name) (return_compute_fields cfg))
  ∧ NoDup (OrderedDict.keys (_compute_fields_mapping self))
  ∧ (name ∈ OrderedDict.keys (_compute_fields_mapping self)
     ↔ name ∈ (return_compute_fields cfg).*1).
Proof.
  intros Hinit. apply __init___Ok in Hinit as (-> & _). simpl.
  split_and!.
  - apply OrderedDict_get_of_pairs.
  - apply OrderedDictFacts.NoDup_keys_of_pairs.
  - apply OrderedDictFacts.elem_of_keys_of_pairs.
Qed.

Lemma compute_fields_last_wins_witness :
  __init__ MoreTests.ComputeTwice = Ok (built MoreTests.ComputeTwice)
  ∧ OrderedDict.get (_compute_fields_mapping (built MoreTests.ComputeTwice)) "attr3"
    = Some (fun x => getattr x "attr1")
  ∧ convert_kwargs (built MoreTests.ComputeTwice) Tests.a
    = Ok {[ "attr1" := VInt 1; "attr2" := VInt 1; "attr3" := VInt 1 ]}.
Proof.
  assert (__init__ MoreTests.ComputeTwice = Ok (built MoreTests.ComputeTwice))
    as Hinit by by_evaluation.
  split_and!; [exact Hinit| |by_evaluation].
  destruct (compute_fields_last_wins _ _ "attr3" Hinit) as (-> & _).
  reflexivity.
Defined.

(** X11.  An extra annotation of [return_type_hints] replaces the type the
    target class declares for the same name, the last annotation of a name
    winning; a name without an extra annotation keeps the declared type of
    the class. *)
Theorem return_type_hints_override `{ConverterClass}
    (cfg : Config) (self : Converter) (name : string) :
  __init__ cfg = Ok self →
  return_hints self !! name
  = match last (filter (fun kv => kv.1 = name) (return_type_hints cfg)) with
    | Some kv => Some kv.2
    | None => get_type_hints (return_class cfg) !! name
    end.
Proof.
  intros Hinit. apply __init___Ok in Hinit as (-> & _). simpl.
  unfold target_hints. rewrite lookup_union, dict_lookup_last.
  destruct (last _) as [kv|]; simpl.
  - by destruct (get_type_hints (return_class cfg) !! name).
  - by destruct (get_type_hints (return_class cfg) !! name).
Qed.

Lemma return_type_hints_override_witness :
  __init__ MoreTests.HintOverride = Ok (built MoreTests.HintOverride)
  ∧ return_hints (built MoreTests.HintOverride) !! "attr2" = Some str
  ∧ return_hints (built MoreTests.HintOverride) !! "attr1" = Some int
  ∧ convert_kwargs (built MoreTests.HintOverride) Tests.a
    = Ok {[ "attr1" := VInt 1; "attr2" := VStr "1" ]}.
Proof.
  assert (__init__ MoreTests.HintOverride = Ok (built MoreTests.HintOverride))
    as Hinit by by_evaluation.
  split_and!; [exact Hinit| | |by_evaluation].
  - rewrite (return_type_hints_override _ _ "attr2" Hinit). reflexivity.
  - rewrite (return_type_hints_override _ _ "attr1" Hinit). reflexivity.
Defined.

(* ===================================================================== *)
(** ** Further properties: the two converter classes *)
(* ===================================================================== *)

Lemma default_parser_output (parser : BaseParser) (val out : value) :
  parser ∈ [StrIntParser; IntStrParser] →
  __call__ parser val = Ok out →
  out = VNone ∨ type_of out = return_type parser.
Proof.
  intros Hp. unfold __call__.
  destruct (is_None val); [intros [= <-]; by left|].
  apply elem_of_cons in Hp as [->|Hp].
  - simpl. destruct val; simpl; try discriminate.
    + intros [= <-]. by right.
    + intros [= <-]. by right.
    + destruct (Builtins.int_of_string s); simpl; [|done].
      intros [= <-]. by right.
    + destruct (Builtins.int_of_bytes b); simpl; [|done].
      intros [= <-]. by right.
  - apply list_elem_of_singleton in Hp as ->.
    simpl. destruct val; simpl; try discriminate; try (intros [= <-]; by right).
    destruct (Builtins.string_of_int z); simpl; [|done].
    intros [= <-]. by right.
Qed.

(** X12.  With the parsers of [BaseConverter], the value stored for a
    same-name or renamed attribute is [None], or a value whose class is the
    declared type of the target attribute, or one whose class the declared
    type wraps in [Optional] — in the step of the loop and in the keyword
    arguments of the constructor. *)
Theorem BaseConverter_copied_value_type
    (cfg : Config) (self : Converter) (inst : instance)
    (attr_from attr_to : string) (return_type : pytype) :
  @__init__ BaseConverter cfg = Ok self →
  routed self attr_from attr_to →
  return_hints self !! attr_to = Some return_type →
  (∀ v, @parse_attr BaseConverter self inst attr_from attr_to = Ok v →
        v = VNone ∨ type_of v = return_type ∨ Optional (type_of v) = return_type)
  ∧ (∀ kwargs, @convert_kwargs BaseConverter self inst = Ok kwargs →
       ∃ v, kwargs !! attr_to = Some v
            ∧ (v = VNone ∨ type_of v = return_type
               ∨ Optional (type_of v) = return_type)).
Proof.
  intros Hinit Hroute Hhint.
  assert (∀ v, @parse_attr BaseConverter self inst attr_from attr_to = Ok v →
               v = VNone ∨ type_of v = return_type
               ∨ Optional (type_of v) = return_type) as Hstep.
  { intros v. destruct (inst !! attr_from) as [val|] eqn:Hval;
      [|by rewrite parse_attr_no_attr].
    rewrite (parse_attr_unfold _ _ _ _ _ _ Hval Hhint).
    destruct (needs_parser val return_type) eqn:Hneeds.
    - destruct (_parsers_mapping self !! _) as [parser|] eqn:Hreg; [|done].
      destruct (__call__ parser val) as [out|e] eqn:Hcall;
        [|by destruct (is_KeyError_or_ValueError e)].
      intros [= <-].
      assert (self = built cfg) as -> by (by apply __init___Ok in Hinit as (-> & _)).
      apply (_setup_parsers_sound (H:=BaseConverter)) in Hreg as [Hp Hkey].
      destruct (default_parser_output _ _ _ Hp Hcall) as [->|Htype]; [by left|].
      right. unfold get_parse_types in Hkey.
      repeat (apply elem_of_cons in Hkey as [[= _ Hrt]|Hkey];
              [rewrite Hrt, Htype; by auto|]).
      by apply elem_of_nil in Hkey.
    - intros [= <-]. unfold needs_parser in Hneeds. simpl in Hneeds.
      apply andb_false_iff in Hneeds as [Hneeds|Hnone].
      + apply andb_false_iff in Hneeds as [Heq|Hopt].
        * apply bool_decide_eq_false in Heq. right. left.
          by destruct (decide (type_of val = return_type)).
        * apply bool_decide_eq_false in Hopt. right. right.
          by destruct (decide (Optional (type_of val) = return_type)).
      + left. by destruct val. }
  split; [exact Hstep|].
  intros kwargs Hkw.
  pose proof (__init___initialised _ _ Hinit) as Hwf.
  assert (returns (@parse_attr BaseConverter self inst attr_from attr_to))
    as [v Hv].
  { by eapply convert_kwargs_Ok_steps. }
  exists v. split; [by eapply routed_kwargs|by apply Hstep].
Qed.

Lemma BaseConverter_copied_value_type_witness :
  __init__ Tests.ABConverter = Ok (built Tests.ABConverter)
  ∧ routed (built Tests.ABConverter) "attr2" "attr2"
  ∧ return_hints (built Tests.ABConverter) !! "attr2" = Some int
  ∧ ∀ v, parse_attr (built Tests.ABConverter) Tests.a "attr2" "attr2" = Ok v →
         v = VNone ∨ type_of v = int ∨ Optional (type_of v) = int.
Proof.
  assert (__init__ Tests.ABConverter = Ok (built Tests.ABConverter))
    as Hinit by by_evaluation.
  assert (routed (built Tests.ABConverter) "attr2" "attr2") as Hroute
    by by_evaluation.
  assert (return_hints (built Tests.ABConverter) !! "attr2" = Some int) as Hhint
    by by_evaluation.
  split_and!; [exact Hinit|exact Hroute|exact Hhint|].
  exact (proj1 (BaseConverter_copied_value_type _ _ Tests.a _ _ _
                  Hinit Hroute Hhint)).
Defined.

(** X13.  [DjangoConverter] observes any value that has [all] as a
    [DjangoRelatedField], whatever its class.  With its default parsers,
    which register nothing for that type, such a value is stored unchanged
    when the target is declared [DjangoRelatedField] or
    [Optional[DjangoRelatedField]], and raises [ParsingError] with the two
    names for every other declared type. *)
Theorem DjangoConverter_related_field
    (cfg : Config) (self : Converter) (inst : instance)
    (attr_from attr_to : string) (val : value) (return_type : pytype) :
  @__init__ DjangoConverter cfg = Ok self →
  inst !! attr_from = Some val →
  hasattr val "all" = true →
  return_hints self !! attr_to = Some return_type →
  @_get_origin_value_type DjangoConverter val = DjangoRelatedField
  ∧ @parse_attr DjangoConverter self inst attr_from attr_to
    = if decide (return_type = DjangoRelatedField
                 ∨ return_type = Optional DjangoRelatedField)
      then Ok val
      else Raise (ParsingError attr_from attr_to
                    (KeyError (KTypes DjangoRelatedField return_type))).
Proof.
  intros Hinit Hval Hall Hhint.
  assert (@_get_origin_value_type DjangoConverter val = DjangoRelatedField) as Hobs.
  { simpl. by rewrite Hall. }
  split; [exact Hobs|].
  rewrite (parse_attr_unfold _ _ _ _ _ _ Hval Hhint). unfold needs_parser.
  rewrite Hobs.
  assert (is_None val = false) as -> by (by destruct val).
  rewrite andb_true_r.
  destruct (decide (return_type = DjangoRelatedField
                    ∨ return_type = Optional DjangoRelatedField)) as [Hrt|Hrt].
  - destruct Hrt as [->| ->].
    + by rewrite (bool_decide_eq_false_2 (DjangoRelatedField ≠ _)) by (by intros ?).
    + rewrite (bool_decide_eq_false_2 (Optional _ ≠ _)) by (by intros ?).
      by rewrite andb_false_r.
  - rewrite !bool_decide_eq_true_2 by (intros Heq; apply Hrt; by auto).
    simpl.
    assert (self = @built DjangoConverter cfg) as ->
      by (by apply __init___Ok in Hinit as (-> & _)).
    simpl. rewrite _setup_parsers_lookup. reflexivity.
Qed.

Lemma DjangoConverter_related_field_witness :
  @__init__ DjangoConverter MoreTests.ModelDto
    = Ok (@built DjangoConverter MoreTests.ModelDto)
  ∧ MoreTests.m !! "tags" = Some MoreTests.related
  ∧ hasattr MoreTests.related "all" = true
  ∧ return_hints (@built DjangoConverter MoreTests.ModelDto) !! "tags"
    = Some (TCls "list")
  ∧ @parse_attr DjangoConverter (@built DjangoConverter MoreTests.ModelDto)
      MoreTests.m "tags" "tags"
    = Raise (ParsingError "tags" "tags"
               (KeyError (KTypes DjangoRelatedField (TCls "list")))).
Proof.
  assert (@__init__ DjangoConverter MoreTests.ModelDto
          = Ok (@built DjangoConverter MoreTests.ModelDto)) as Hinit
    by by_evaluation.
  assert (MoreTests.m !! "tags" = Some MoreTests.related) as Hval by reflexivity.
  assert (hasattr MoreTests.related "all" = true) as Hall by reflexivity.
  assert (return_hints (@built DjangoConverter MoreTests.ModelDto) !! "tags"
          = Some (TCls "list")) as Hhint by reflexivity.
  split_and!; [exact Hinit|exact Hval|exact Hall|exact Hhint|].
  destruct (DjangoConverter_related_field _ _ _ "tags" "tags" _ _
              Hinit Hval Hall Hhint) as [_ ->].
  reflexivity.
Defined.
